(** * The prediction dashboard: ingestion and query layer

    A shallow embedding of [dashboard.py].  The script reads
    [predictions.csv] with pandas, trims the column labels, picks the
    prediction and the identifier column by name, computes four summary
    numbers, answers a point lookup typed by the user and shows the first
    few fraudulent and legitimate rows.

    Conventions of the model.
    - Python [str] is [string]; labels and user input are ASCII text.
    - Python exceptions are the constructors of [exn]; code that can raise
      lives in the monad [result].  Statements that read the globals of
      the script live in [M], which threads them.
    - A pandas column is a [Series] with its dtype: [Int64] holds machine
      integers (sums wrap at 64 bits), [Float64] holds finite doubles or
      the missing value.  A finite double is modelled by the rational it
      denotes ([Pd.is_double] says which rationals those are), so two
      cells are compared exactly; the rounding of float sums, products
      and quotients, the infinities, and text or boolean columns are
      outside the model, and nothing is stated about files that have
      them.
    - A [DataFrame] is the ordered list of its labelled columns; [df[c]]
      is modelled for frames whose labels are distinct, which
      [Pd.well_formed] records together with the equal length of the
      columns and with every cell being a value of its column's type.
    - Before a float column is compared with a Python integer that fits
      a machine integer, the integer is turned into the nearest double
      ([Pd.as_cell]).
    - [int] of a string takes the interpreter's limit on the number of
      digits as a parameter, [max_str_digits] (4300 unless reconfigured,
      0 for no limit).
    - Of Streamlit the model keeps what decides how a run goes on:
      [st.stop], the cache of [load_data], and the refusal of a second
      button with the label of one already on the page. *)

From Stdlib Require Import List String Ascii Bool Arith ZArith QArith Lia.
Import ListNotations.

Close Scope Q_scope.
Open Scope list_scope.
Open Scope string_scope.
Open Scope nat_scope.

(* ================================================================== *)
(** * Exceptions *)

Inductive exn : Type :=
| FileNotFoundError
| ValueError
| IndexError
| KeyError
| ZeroDivisionError
| AttributeError
| DuplicateWidgetID.

Inductive result (A : Type) : Type :=
| Ok (a : A)
| Raise (e : exn).

Arguments Ok {A} a.
Arguments Raise {A} e.

Definition bind {A B : Type} (m : result A) (k : A -> result B) : result B :=
  match m with
  | Ok a => k a
  | Raise e => Raise e
  end.

Declare Scope py_scope.
Delimit Scope py_scope with py.
Notation "x <- m ;; k" := (bind m (fun x => k))
  (at level 61, m at next level, right associativity) : py_scope.

(** [try: m  except e: h] *)
Definition try_except {A : Type} (m : result A)
  (catches : exn -> bool) (h : result A) : result A :=
  match m with
  | Ok a => Ok a
  | Raise e => if catches e then h else Raise e
  end.

Definition is_ValueError (e : exn) : bool :=
  match e with ValueError => true | _ => false end.

(* ================================================================== *)
(** * Python strings *)

Module Py.

Definition code (c : ascii) : nat := nat_of_ascii c.

(** [c.isspace()] on ASCII: TAB, LF, VT, FF, CR, FS, GS, RS, US, SPACE. *)
Definition isspace (c : ascii) : bool :=
  let n := code c in
  ((9 <=? n) && (n <=? 13)) || ((28 <=? n) && (n <=? 32)).

(** The interpreter's own test [Py_ISSPACE], which [int] uses on ASCII
    text: TAB, LF, VT, FF, CR, SPACE. *)
Definition ISSPACE (c : ascii) : bool :=
  let n := code c in
  ((9 <=? n) && (n <=? 13)) || (n =? 32).

Definition isdigit (c : ascii) : bool :=
  let n := code c in (48 <=? n) && (n <=? 57).

Definition isupper (c : ascii) : bool :=
  let n := code c in (65 <=? n) && (n <=? 90).

Definition lower_char (c : ascii) : ascii :=
  if isupper c then ascii_of_nat (code c + 32) else c.

(** [s.lower()] *)
Fixpoint lower (s : string) : string :=
  match s with
  | EmptyString => EmptyString
  | String c s' => String (lower_char c) (lower s')
  end.

(** Removal of the leading, and of the trailing, characters that satisfy
    [space]. *)
Fixpoint lstrip (space : ascii -> bool) (s : string) : string :=
  match s with
  | EmptyString => EmptyString
  | String c s' => if space c then lstrip space s' else s
  end.

Fixpoint rstrip (space : ascii -> bool) (s : string) : string :=
  match s with
  | EmptyString => EmptyString
  | String c s' =>
      match rstrip space s' with
      | EmptyString => if space c then EmptyString else String c EmptyString
      | r => String c r
      end
  end.

(** [s.strip()] *)
Definition strip (s : string) : string := rstrip isspace (lstrip isspace s).

Fixpoint startswith (p s : string) : bool :=
  match p, s with
  | EmptyString, _ => true
  | String a p', String b s' => Ascii.eqb a b && startswith p' s'
  | String _ _, EmptyString => false
  end.

(** [sub in s] *)
Fixpoint contains (sub s : string) : bool :=
  startswith sub s ||
  match s with
  | EmptyString => false
  | String _ s' => contains sub s'
  end.

(** Truth value of a string: non-empty. *)
Definition truthy (s : string) : bool :=
  match s with EmptyString => false | _ => true end.

Definition is_underscore (c : ascii) : bool := code c =? 95.

Definition digit_value (c : ascii) : Z := Z.of_nat (code c - 48).

(** The scan of the digits of a literal, with the accumulated value, the
    number of digits seen and whether the previous character was an
    underscore: an underscore is allowed between two digits only. *)
Fixpoint scan_digits (s : string) (acc : Z) (ndigits : nat) (prev_us : bool)
  : option (Z * nat) :=
  match s with
  | EmptyString => if prev_us then None else Some (acc, ndigits)
  | String c s' =>
      if isdigit c
      then scan_digits s' (10 * acc + digit_value c)%Z (S ndigits) false
      else if is_underscore c
           then if prev_us then None else scan_digits s' acc ndigits true
           else None
  end.

(** Sign of a literal and the text after it. *)
Definition split_sign (s : string) : bool * string :=
  match s with
  | String "-" s' => (true, s')
  | String "+" s' => (false, s')
  | _ => (false, s)
  end.

(** The interpreter refuses literals of more than [max_str_digits]
    digits; [0] switches the limit off. *)
Definition exceeds_limit (max_str_digits ndigits : nat) : bool :=
  (0 <? max_str_digits) && (max_str_digits <? ndigits).

(** [int(s)] for a string [s], base ten: white space around the literal
    is skipped, then come an optional sign and the digits. *)
Definition int (max_str_digits : nat) (s : string) : result Z :=
  let (negative, body) := split_sign (rstrip ISSPACE (lstrip ISSPACE s)) in
  match body with
  | EmptyString => Raise ValueError
  | String c _ =>
      if is_underscore c then Raise ValueError
      else
        match scan_digits body 0%Z 0 false with
        | None => Raise ValueError
        | Some (v, ndigits) =>
            if exceeds_limit max_str_digits ndigits then Raise ValueError
            else Ok (if negative then (- v)%Z else v)
        end
  end.

End Py.

(* ================================================================== *)
(** * The part of pandas the script uses *)

Module Pd.

(** A float64 cell: a finite value, given by the rational it denotes, or
    the missing value.  The infinities are not modelled. *)
Inductive float64 : Type :=
| Num (q : Q)
| NaN.

(** One cell, as [.values[i]] or [.tolist()] hands it to Python. *)
Inductive scalar : Type :=
| IntVal (z : Z)
| FloatVal (x : float64).

(** A numeric column.  Text and boolean columns are not modelled. *)
Inductive Series : Type :=
| Int64 (xs : list Z)
| Float64 (xs : list float64).

Definition DataFrame : Type := list (string * Series).

(** [s.values], [s.tolist()] *)
Definition values (s : Series) : list scalar :=
  match s with
  | Int64 xs => map IntVal xs
  | Float64 xs => map FloatVal xs
  end.

Definition len_series (s : Series) : nat :=
  match s with
  | Int64 xs => List.length xs
  | Float64 xs => List.length xs
  end.

(** Two's complement wrap-around of a 64-bit sum. *)
Definition wrap64 (z : Z) : Z :=
  ((z + 2 ^ 63) mod 2 ^ 64 - 2 ^ 63)%Z.

Fixpoint isum (xs : list Z) : Z :=
  match xs with
  | [] => 0%Z
  | x :: r => (x + isum r)%Z
  end.

(** Sum of a float column; missing values are skipped. *)
Fixpoint nansum (xs : list float64) : Q :=
  match xs with
  | [] => 0%Q
  | Num q :: r => (q + nansum r)%Q
  | NaN :: r => nansum r
  end.

(** [s.sum()] *)
Definition sum (s : Series) : scalar :=
  match s with
  | Int64 xs => IntVal (wrap64 (isum xs))
  | Float64 xs => FloatVal (Num (nansum xs))
  end.

(** Truncation toward zero. *)
Definition trunc (q : Q) : Z := Z.quot (Qnum q) (Z.pos (Qden q)).

(** [int(x)] for a number [x]. *)
Definition int (x : scalar) : result Z :=
  match x with
  | IntVal z => Ok z
  | FloatVal (Num q) => Ok (trunc q)
  | FloatVal NaN => Raise ValueError
  end.

(** [x == n] for a cell [x] and an integer [n], as numbers; the missing
    value equals nothing. *)
Definition eq_int (x : scalar) (n : Z) : bool :=
  match x with
  | IntVal z => Z.eqb z n
  | FloatVal (Num q) => Qeq_bool q (inject_Z n)
  | FloatVal NaN => false
  end.

(** [x == y] for a float [y]. *)
Definition eq_float (x : scalar) (y : Q) : bool :=
  match x with
  | IntVal z => Qeq_bool (inject_Z z) y
  | FloatVal (Num q) => Qeq_bool q y
  | FloatVal NaN => false
  end.

(** The integers that int64 and float64 both hold exactly. *)
Definition exact (n : Z) : bool := (Z.abs n <=? 2 ^ 53)%Z.

(** The integer [n] rounded to a significand of 53 bits, ties going to
    the even one: the double nearest to [n]. *)
Definition to_double (n : Z) : Z :=
  if exact n then n
  else
    let a := Z.abs n in
    let k := (Z.log2 a - 52)%Z in
    let m := (a / 2 ^ k)%Z in
    let r := (a mod 2 ^ k)%Z in
    let half := (2 ^ (k - 1))%Z in
    let m' := if (r <? half)%Z then m
              else if (half <? r)%Z then (m + 1)%Z
              else if Z.even m then m else (m + 1)%Z in
    (Z.sgn n * (m' * 2 ^ k))%Z.

(** The Python integers numpy reads as a machine integer (int64, or
    uint64 above it). *)
Definition machine_int (n : Z) : bool :=
  (- 2 ^ 63 <=? n)%Z && (n <? 2 ^ 64)%Z.

(** What the cells of [s] are compared with in [s == n].  An integer
    column is compared with [n].  For a float column numpy turns a
    machine integer into a double, the nearest one; a larger integer
    stays a Python object, and Python compares a float with an [int] as
    numbers. *)
Definition as_cell (s : Series) (n : Z) : Z :=
  match s with
  | Int64 _ => n
  | Float64 _ => if machine_int n then to_double n else n
  end.

(** [s == n], element by element. *)
Definition eq (s : Series) (n : Z) : list bool :=
  map (fun x => eq_int x (as_cell s n)) (values s).

(** Selection by a boolean mask. *)
Fixpoint select {A : Type} (mask : list bool) (xs : list A) : list A :=
  match mask, xs with
  | b :: m, x :: r => if b then x :: select m r else select m r
  | _, _ => []
  end.

Definition select_series (mask : list bool) (s : Series) : Series :=
  match s with
  | Int64 xs => Int64 (select mask xs)
  | Float64 xs => Float64 (select mask xs)
  end.

(** [s.head(n)] *)
Definition head_series (n : nat) (s : Series) : Series :=
  match s with
  | Int64 xs => Int64 (firstn n xs)
  | Float64 xs => Float64 (firstn n xs)
  end.

(** [df.columns] *)
Definition columns (df : DataFrame) : list string := map fst df.

(** [df.columns = labels] *)
Definition set_columns (df : DataFrame) (labels : list string) : DataFrame :=
  combine labels (map snd df).

(** [len(df)]: the number of rows. *)
Definition len (df : DataFrame) : nat :=
  match df with
  | [] => 0
  | (_, s) :: _ => len_series s
  end.

(** [df[c]] for a label [c] that the frame carries once (pandas hands
    back a frame, not a column, for a repeated label: [well_formed]
    excludes those frames). *)
Fixpoint getitem (df : DataFrame) (c : string) : result Series :=
  match df with
  | [] => Raise KeyError
  | (l, s) :: rest => if String.eqb l c then Ok s else getitem rest c
  end.

(** [df[mask]] for a boolean mask. *)
Definition getitem_mask (df : DataFrame) (mask : list bool) : DataFrame :=
  map (fun '(l, s) => (l, select_series mask s)) df.

(** [df.head(n)] *)
Definition head (n : nat) (df : DataFrame) : DataFrame :=
  map (fun '(l, s) => (l, head_series n s)) df.

(** [xs[0]] *)
Definition item0 {A : Type} (xs : list A) : result A :=
  match xs with
  | [] => Raise IndexError
  | x :: _ => Ok x
  end.

(** [a / b] for integers. *)
Definition truediv (a b : Z) : result Q :=
  if Z.eqb b 0 then Raise ZeroDivisionError
  else Ok (Qmake a 1 / Qmake b 1)%Q.

(** Every column has as many cells as the frame has rows. *)
Definition rectangular (df : DataFrame) : bool :=
  forallb (fun c => len_series (snd c) =? len df) df.

Fixpoint distinct (ls : list string) : bool :=
  match ls with
  | [] => true
  | l :: r => negb (existsb (String.eqb l) r) && distinct r
  end.

Fixpoint is_pow2 (p : positive) : bool :=
  match p with
  | xH => true
  | xO p' => is_pow2 p'
  | xI _ => false
  end.

(** The rationals that are finite doubles: the integers below 2^1024
    that are their own nearest double, and the odd multiples, below 2^53,
    of a power of two down to 2^-1074. *)
Definition is_double (q : Q) : bool :=
  let a := Qnum q in
  let b := Z.pos (Qden q) in
  if (a mod b =? 0)%Z
  then (to_double (a / b) =? a / b)%Z && (Z.abs (a / b) <? 2 ^ 1024)%Z
  else
    let r := Qred q in
    is_pow2 (Qden r) && (Z.log2 (Z.pos (Qden r)) <=? 1074)%Z
    && (Z.abs (Qnum r) <? 2 ^ 53)%Z.

(** Every cell is a value its column's type holds. *)
Definition typed (s : Series) : bool :=
  match s with
  | Int64 xs => forallb (fun z => (- 2 ^ 63 <=? z)%Z && (z <? 2 ^ 63)%Z) xs
  | Float64 xs =>
      forallb (fun x => match x with Num q => is_double q | NaN => true end) xs
  end.

(** The frames the model speaks about: columns of one length, holding
    values of their type, under labels that differ. *)
Definition well_formed (df : DataFrame) : bool :=
  rectangular df && distinct (columns df)
  && forallb (fun c => typed (snd c)) df.

(** The rows of a frame, in order: row [i] lists cell [i] of every
    column. *)
Fixpoint transpose (n : nat) (cols : list (list scalar)) : list (list scalar) :=
  match n with
  | 0 => []
  | S k => map (hd (FloatVal NaN)) cols :: transpose k (map (@tl scalar) cols)
  end.

Definition records (df : DataFrame) : list (list scalar) :=
  transpose (len df) (map (fun c => values (snd c)) df).

(** Position of the first column labelled [c]. *)
Fixpoint position (c : string) (ls : list string) : option nat :=
  match ls with
  | [] => None
  | l :: r =>
      if String.eqb l c then Some 0
      else option_map S (position c r)
  end.

(** Cell [j] of a row. *)
Definition cell (j : nat) (row : list scalar) : scalar :=
  nth j row (FloatVal NaN).

End Pd.

(* ================================================================== *)
(** * Column detection (lines 89-108) *)

Open Scope py_scope.

(** [df.columns[-1]] *)
Definition last_label (cols : list string) : result string :=
  match cols with
  | [] => Raise IndexError
  | c :: cs => Ok (last cs c)
  end.

(** [df.columns[0]] *)
Definition first_label (cols : list string) : result string :=
  match cols with
  | [] => Raise IndexError
  | c :: _ => Ok c
  end.

(** The [for col in df.columns: if key in col.lower(): ...; break] loop. *)
Fixpoint scan_columns (key : string) (cols : list string) : option string :=
  match cols with
  | [] => None
  | col :: rest =>
      if Py.contains key (Py.lower col) then Some col
      else scan_columns key rest
  end.

Definition detect_pred_col (cols : list string) : result string :=
  match scan_columns "prediction" cols with
  | Some c => Ok c
  | None => last_label cols
  end.

Definition detect_id_col (cols : list string) : result string :=
  match scan_columns "transaction" cols with
  | Some c => Ok c
  | None => first_label cols
  end.

(** The globals the rest of the script reads. *)
Record Table : Type := {
  df : Pd.DataFrame;
  pred_col : string;
  id_col : string
}.

Definition detect_columns (df0 : Pd.DataFrame) : result Table :=
  let df1 := Pd.set_columns df0 (map Py.strip (Pd.columns df0)) in
  p <- detect_pred_col (Pd.columns df1) ;;
  i <- detect_id_col (Pd.columns df1) ;;
  Ok {| df := df1; pred_col := p; id_col := i |}.

(* ================================================================== *)
(** * Loading (lines 73-87) *)

(** What [pd.read_csv("predictions.csv")] does: it returns a frame, or
    raises [FileNotFoundError] because there is no file at the path, or
    raises another exception [e], of which [str(e)] is kept. *)
Inductive read_csv : Type :=
| Parsed (frame : Pd.DataFrame)
| NoSuchFile
| Failed (str_e : string).

(** The three ways out of the [try] statement of [load_data]. *)
Inductive Loaded : Type :=
| Frame (frame : Pd.DataFrame)
| NotFoundError
| ParseError (msg : string).

Definition load_data_branch (r : read_csv) : Loaded :=
  match r with
  | Parsed frame => Frame frame
  | NoSuchFile => NotFoundError
  | Failed str_e => ParseError str_e
  end.

(** The pair [(df, error)] each branch returns. *)
Definition returned (l : Loaded) : option Pd.DataFrame * option string :=
  match l with
  | Frame frame => (Some frame, None)
  | NotFoundError => (None, Some "predictions.csv not found")
  | ParseError msg => (None, Some msg)
  end.

Definition load_data (r : read_csv) : option Pd.DataFrame * option string :=
  returned (load_data_branch r).

(** [if error:] *)
Definition error_set (error : option string) : bool :=
  match error with
  | None => false
  | Some msg => Py.truthy msg
  end.

(* ================================================================== *)
(** * Metrics (lines 110-114) *)

Record Metrics : Type := {
  total : Z;
  fraud : Z;
  legit : Z;
  fraud_rate : Q
}.

Definition summarize (t : Table) : result Metrics :=
  let total := Z.of_nat (Pd.len (df t)) in
  col <- Pd.getitem (df t) (pred_col t) ;;
  fraud <- Pd.int (Pd.sum col) ;;
  let legit := (total - fraud)%Z in
  fraud_rate <- (if (0 <? total)%Z
                 then q <- Pd.truediv fraud total ;; Ok (q * inject_Z 100)%Q
                 else Ok 0%Q) ;;
  Ok {| total := total; fraud := fraud; legit := legit;
        fraud_rate := fraud_rate |}.

(* ================================================================== *)
(** * Transaction lookup (lines 165-197) *)

Inductive LookupResult : Type :=
| Fraudulent
| Legitimate
| NotFound
| InvalidId
| EmptyInput.

(** What the page shows for each result. *)
Inductive element : Type :=
| st_markdown (css_class : string) (shown_id : string)
| st_warning (msg : string)
| st_error (msg : string).

Definition display (r : LookupResult) (search_id : string) : element :=
  match r with
  | Fraudulent => st_markdown "fraud-alert" search_id
  | Legitimate => st_markdown "safe-alert" search_id
  | NotFound =>
      st_warning ("Transaction ID `" ++ search_id ++ "` not found in dataset")
  | InvalidId => st_error "Please enter a valid numeric Transaction ID"
  | EmptyInput => st_warning "Please enter a Transaction ID"
  end.

(** [prediction == 1 or prediction == 1.0] *)
Definition flagged (prediction : Pd.scalar) : bool :=
  Pd.eq_int prediction 1 || Pd.eq_float prediction 1%Q.

Section Lookup.

Variable max_str_digits : nat.

(** The [try] statement of lines 167-194. *)
Definition lookup (t : Table) (search_id : string) : result LookupResult :=
  try_except
    (search_id_int <- Py.int max_str_digits search_id ;;
     ids <- Pd.getitem (df t) (id_col t) ;;
     let result := Pd.getitem_mask (df t) (Pd.eq ids search_id_int) in
     if 0 <? Pd.len result
     then
       preds <- Pd.getitem result (pred_col t) ;;
       prediction <- Pd.item0 (Pd.values preds) ;;
       if flagged prediction then Ok Fraudulent else Ok Legitimate
     else Ok NotFound)
    is_ValueError
    (Ok InvalidId).

(** The [if search_button and search_id: ... elif search_button: ...]
    statement. *)
Definition search (t : Table) (search_button : bool) (search_id : string)
  : result (option LookupResult) :=
  if search_button && Py.truthy search_id
  then r <- lookup t search_id ;; Ok (Some r)
  else if search_button then Ok (Some EmptyInput)
  else Ok None.

End Lookup.

(* ================================================================== *)
(** * Samples (lines 207-209 and 264-273) *)

(** [df[pred_col] == 1] and [df[pred_col] == 0], cell by cell. *)
Definition isFraud (x : Pd.scalar) : bool := Pd.eq_int x 1.
Definition isLegit (x : Pd.scalar) : bool := Pd.eq_int x 0.

(** [df[<mask on df[pred_col]>].head(limit)] *)
Definition sample (t : Table) (predicate : Pd.scalar -> bool) (limit : nat)
  : result Pd.DataFrame :=
  col <- Pd.getitem (df t) (pred_col t) ;;
  Ok (Pd.head limit (Pd.getitem_mask (df t) (map predicate (Pd.values col)))).

(** [df[<mask>][id_col].head(limit).tolist()] *)
Definition sample_ids (t : Table) (predicate : Pd.scalar -> bool) (limit : nat)
  : result (list Pd.scalar) :=
  col <- Pd.getitem (df t) (pred_col t) ;;
  ids <- Pd.getitem (Pd.getitem_mask (df t) (map predicate (Pd.values col)))
                    (id_col t) ;;
  Ok (Pd.values (Pd.head_series limit ids)).

Definition legit_ids (t : Table) := sample_ids t isLegit 2.
Definition fraud_ids (t : Table) := sample_ids t isFraud 2.
Definition fraud_samples (t : Table) := sample t isFraud 10.
Definition legit_samples (t : Table) := sample t isLegit 10.

(* ================================================================== *)
(** * Quick test (lines 201-229) *)

(** [xs[i]] *)
Definition item {A : Type} (xs : list A) (i : nat) : result A :=
  match nth_error xs i with
  | Some x => Ok x
  | None => Raise IndexError
  end.

(** The class the script prints on a quick-test button: the check mark of
    lines 213 and 218, the siren of lines 223 and 228. *)
Inductive verdict : Type :=
| LEGITIMATE
| FRAUDULENT.

Definition same_verdict (v w : verdict) : bool :=
  match v, w with
  | LEGITIMATE, LEGITIMATE => true
  | FRAUDULENT, FRAUDULENT => true
  | _, _ => false
  end.

(** Two identifiers that [f"{x}"] prints alike. *)
Definition same_text (x y : Pd.scalar) : bool :=
  match x, y with
  | Pd.IntVal a, Pd.IntVal b => Z.eqb a b
  | Pd.FloatVal (Pd.Num p), Pd.FloatVal (Pd.Num q) => Qeq_bool p q
  | Pd.FloatVal Pd.NaN, Pd.FloatVal Pd.NaN => true
  | _, _ => false
  end.

(** A button, by what makes its label: the class and the identifier. *)
Definition button : Type := (verdict * Pd.scalar)%type.

Definition same_button (a b : button) : bool :=
  same_verdict (fst a) (fst b) && same_text (snd a) (snd b).

(** [st.button(label, use_container_width=True)]: Streamlit refuses a
    button whose label a button already on the page carries (none of the
    quick-test buttons has a key).  The label of the search button is none
    of theirs. *)
Definition st_button (shown : list button) (b : button) : result (list button) :=
  if existsb (fun old => same_button old b) shown
  then Raise DuplicateWidgetID
  else Ok (shown ++ [b])%list.

(** What the section has put on the page: its buttons and the lines
    printed for the pressed ones. *)
Record QuickTest : Type := {
  buttons : list button;
  messages : list button
}.

(** [if len(ids) > i: if st.button(f"... {ids[i]}"): st.success(f"...
    {ids[i]} ...")] *)
Definition quick_column (v : verdict) (ids : list Pd.scalar) (i : nat)
  (pressed : bool) (q : QuickTest) : result QuickTest :=
  if i <? List.length ids
  then
    label <- item ids i ;;
    shown <- st_button (buttons q) (v, label) ;;
    if pressed
    then said <- item ids i ;;
         Ok {| buttons := shown; messages := (messages q ++ [(v, said)])%list |}
    else Ok {| buttons := shown; messages := messages q |}
  else Ok q.

(** Lines 211-229; [pressed i] tells whether the button of column [i] is
    the one the user pressed. *)
Definition quick_test (legit_ids fraud_ids : list Pd.scalar)
  (pressed : nat -> bool) : result QuickTest :=
  c1 <- quick_column LEGITIMATE legit_ids 0 (pressed 1)
          {| buttons := []; messages := [] |} ;;
  c2 <- quick_column LEGITIMATE legit_ids 1 (pressed 2) c1 ;;
  c3 <- quick_column FRAUDULENT fraud_ids 0 (pressed 3) c2 ;;
  quick_column FRAUDULENT fraud_ids 1 (pressed 4) c3.

(* ================================================================== *)
(** * One run of the script *)

(** Statements that read the globals and may raise. *)
Definition M (A : Type) : Type := Table -> result (A * Table).

Definition retM {A : Type} (a : A) : M A := fun t => Ok (a, t).

Definition bindM {A B : Type} (m : M A) (k : A -> M B) : M B :=
  fun t =>
    match m t with
    | Ok (a, t') => k a t'
    | Raise e => Raise e
    end.

Notation "x <~ m ;; k" := (bindM m (fun x => k))
  (at level 61, m at next level, right associativity) : py_scope.

(** A statement that only reads the globals. *)
Definition query {A : Type} (f : Table -> result A) : M A :=
  fun t => a <- f t ;; Ok (a, t).

Record Page : Type := {
  page_metrics : Metrics;
  page_alert : option LookupResult;
  page_legit_ids : list Pd.scalar;
  page_fraud_ids : list Pd.scalar;
  page_fraud_samples : Pd.DataFrame;
  page_legit_samples : Pd.DataFrame
}.

(** How a run ends when no exception escapes: [st.stop()] after the error
    banner, or the whole page with the globals as the run leaves them. *)
Inductive Run : Type :=
| Stopped (banner : string)
| Rendered (page : Page) (globals : Table).

Section Script.

Variable max_str_digits : nat.

(** Lines 110-273, for a run in which none of the quick-test buttons is
    the one pressed: the section of lines 205-229 puts its buttons on the
    page, or ends the run. *)
Definition body (search_button : bool) (search_id : string) : M Page :=
  m <~ query summarize ;;
  a <~ query (fun t => search max_str_digits t search_button search_id) ;;
  li <~ query legit_ids ;;
  fi <~ query fraud_ids ;;
  _ <~ query (fun _ => quick_test li fi (fun _ => false)) ;;
  fs <~ query fraud_samples ;;
  ls <~ query legit_samples ;;
  retM {| page_metrics := m; page_alert := a;
          page_legit_ids := li; page_fraud_ids := fi;
          page_fraud_samples := fs; page_legit_samples := ls |}.

Definition script (r : read_csv) (search_button : bool) (search_id : string)
  : result Run :=
  let (df, error) := load_data r in
  if error_set error
  then Ok (Stopped ("Error: " ++ match error with Some m => m | None => "" end))
  else
    match df with
    | None => Raise AttributeError
    | Some df0 =>
        t <- detect_columns df0 ;;
        pt <- body search_button search_id t ;;
        Ok (Rendered (fst pt) (snd pt))
    end.

End Script.

(* ================================================================== *)
(** * Vocabulary of the statements *)

(** [sub] occurs in [s]. *)
Definition is_substring (sub s : string) : Prop :=
  exists pre suf, s = pre ++ sub ++ suf.

Fixpoint all_chars (p : ascii -> bool) (s : string) : bool :=
  match s with
  | EmptyString => true
  | String c s' => p c && all_chars p s'
  end.

(** White space only, in the sense of [str.isspace]. *)
Definition all_space (s : string) : bool := all_chars Py.isspace s.

(** White space only, in the sense of [int]. *)
Definition all_padding (s : string) : bool := all_chars Py.ISSPACE s.

Definition all_digits (s : string) : bool := all_chars Py.isdigit s.

(** Neither the first nor the last character is white space. *)
Definition clean_ends (s : string) : Prop :=
  (forall c s', s = String c s' -> Py.isspace c = false) /\
  (forall s' c, s = s' ++ String c "" -> Py.isspace c = false).

(** [s] is [raw] without its leading and trailing white space. *)
Definition trimmed_of (raw s : string) : Prop :=
  clean_ends s /\
  exists l r, raw = l ++ s ++ r /\ all_space l = true /\ all_space r = true.

(** [c] is the first of [cols], in order, whose lower-cased name contains
    [key]. *)
Definition first_match (key : string) (cols : list string) (c : string) : Prop :=
  exists i,
    nth_error cols i = Some c /\
    is_substring key (Py.lower c) /\
    forall j c', j < i -> nth_error cols j = Some c' ->
                 ~ is_substring key (Py.lower c').

Definition no_match (key : string) (cols : list string) : Prop :=
  forall c, In c cols -> ~ is_substring key (Py.lower c).

(** The value of a decimal numeral, most significant digit first. *)
Fixpoint decimal (acc : Z) (ds : string) : Z :=
  match ds with
  | EmptyString => acc
  | String c r => decimal (10 * acc + Py.digit_value c)%Z r
  end.

(** A cell equal to one, as an integer or as a float. *)
Definition is_one (x : Pd.scalar) : Prop :=
  match x with
  | Pd.IntVal z => z = 1%Z
  | Pd.FloatVal (Pd.Num q) => (q == 1)%Q
  | Pd.FloatVal Pd.NaN => False
  end.

Definition is_zero (x : Pd.scalar) : Prop :=
  match x with
  | Pd.IntVal z => z = 0%Z
  | Pd.FloatVal (Pd.Num q) => (q == 0)%Q
  | Pd.FloatVal Pd.NaN => False
  end.

(** A cell equal to the integer [n]. *)
Definition equals (n : Z) (x : Pd.scalar) : Prop :=
  match x with
  | Pd.IntVal z => z = n
  | Pd.FloatVal (Pd.Num q) => (q == inject_Z n)%Q
  | Pd.FloatVal Pd.NaN => False
  end.

(* ================================================================== *)
(** * Auxiliary definitions *)

Definition cells (df : Pd.DataFrame) : list (list Pd.scalar) :=
  map (fun c => Pd.values (snd c)) df.

(** Number of [true] entries of a mask. *)
Definition hits (m : list bool) : nat := List.length (filter (fun b => b) m).

(** The integer the script keeps in [fraud]. *)
Definition fraud_of (s : Pd.Series) : Z :=
  match s with
  | Pd.Int64 xs => Pd.wrap64 (Pd.isum xs)
  | Pd.Float64 xs => Pd.trunc (Pd.nansum xs)
  end.

Definition rate_of (f n : Z) : Q :=
  if (0 <? n)%Z then (Qmake f 1 / Qmake n 1 * inject_Z 100)%Q else 0%Q.

(** The cells of a binary column: one, zero or missing. *)
Definition binary (x : Pd.scalar) : Prop :=
  is_one x \/ is_zero x \/ x = Pd.FloatVal Pd.NaN.

(** A frame whose two fraudulent rows carry one identifier. *)
Definition repeated_id_frame : Pd.DataFrame :=
  [("TransactionID", Pd.Int64 [5; 5; 6]%Z);
   ("prediction", Pd.Int64 [1; 1; 0]%Z)].

(** A frame with one record whose prediction cell is 2. *)
Definition off_label_frame : Pd.DataFrame :=
  [("TransactionID", Pd.Int64 [7%Z]); ("prediction", Pd.Int64 [2%Z])].

Definition off_label_table : Table :=
  {| df := off_label_frame; pred_col := "prediction";
     id_col := "TransactionID" |}.



Definition with_alert (p : Page) (a : option LookupResult) : Page :=
  {| page_metrics := page_metrics p;
     page_alert := a;
     page_legit_ids := page_legit_ids p;
     page_fraud_ids := page_fraud_ids p;
     page_fraud_samples := page_fraud_samples p;
     page_legit_samples := page_legit_samples p |}.

(** The same run with another outcome of the lookup widget. *)
Definition run_with_alert (r : result Run) (a : option LookupResult)
  : result Run :=
  match r with
  | Ok (Rendered p g) => Ok (Rendered (with_alert p a) g)
  | other => other
  end.

(** A small file as [read_csv] returns it, and the globals the script
    derives from it. *)
Definition demo_frame : Pd.DataFrame :=
  [(" TransactionID ", Pd.Int64 [10; 11; 12; 13]%Z);
   ("amt", Pd.Float64 [Pd.Num (1 # 2); Pd.NaN; Pd.Num 3; Pd.Num 4]);
   ("isFraud_Prediction", Pd.Float64 [Pd.Num 0; Pd.Num 1; Pd.Num 1; Pd.Num 0])].

Definition demo_table : Table :=
  {| df :=
       [("TransactionID", Pd.Int64 [10; 11; 12; 13]%Z);
        ("amt", Pd.Float64 [Pd.Num (1 # 2); Pd.NaN; Pd.Num 3; Pd.Num 4]);
        ("isFraud_Prediction",
         Pd.Float64 [Pd.Num 0; Pd.Num 1; Pd.Num 1; Pd.Num 0])];
     pred_col := "isFraud_Prediction";
     id_col := "TransactionID" |}.

(* ================================================================== *)
(** * The rest of the page *)

(** Lines 127-132 and 251: the share shown beside the legitimate count,
    [100 - fraud_rate], as the exact number (the page shows it rounded to
    two decimals). *)
Definition legit_rate (m : Metrics) : Q := (inject_Z 100 - fraud_rate m)%Q.

(** Lines 239-242: the two bars of the chart. *)
Definition chart_data (m : Metrics) : list (string * Z) :=
  [("Legitimate", legit m); ("Fraudulent", fraud m)].




(** Line 73: [@st.cache_data].  The decorated function takes no argument,
    so the cache holds at most one entry: the pair the first call
    returned.  Later calls return a copy of it without running the
    function. *)
Definition cache_data : Type := option (option Pd.DataFrame * option string).

Definition cached_load_data (cache : cache_data) (r : read_csv)
  : (option Pd.DataFrame * option string) * cache_data :=
  match cache with
  | Some kept => (kept, Some kept)
  | None => (load_data r, Some (load_data r))
  end.

Section Reruns.

Variable max_str_digits : nat.

(** Lines 83-273, from the pair [load_data] handed back. *)
Definition script_from (loaded : option Pd.DataFrame * option string)
  (search_button : bool) (search_id : string) : result Run :=
  let (df, error) := loaded in
  if error_set error
  then Ok (Stopped ("Error: " ++ match error with Some m => m | None => "" end))
  else
    match df with
    | None => Raise AttributeError
    | Some df0 =>
        t <- detect_columns df0 ;;
        pt <- body max_str_digits search_button search_id t ;;
        Ok (Rendered (fst pt) (snd pt))
    end.

(** One rerun of the script: the state of the file at that moment and what
    the user did. *)
Definition rerun (cache : cache_data) (e : read_csv * bool * string)
  : result Run * cache_data :=
  let '(r, search_button, search_id) := e in
  let (loaded, cache') := cached_load_data cache r in
  (script_from loaded search_button search_id, cache').

(** The reruns of one server process, in order. *)
Fixpoint session (cache : cache_data) (events : list (read_csv * bool * string))
  : list (result Run) :=
  match events with
  | [] => []
  | e :: rest =>
      let (run, cache') := rerun cache e in
      run :: session cache' rest
  end.

End Reruns.


(** Characters of an integer literal and of the white space around it. *)
Definition literal_char (c : ascii) : bool :=
  Py.isdigit c || Py.is_underscore c || Py.ISSPACE c
  || (Py.code c =? 43) || (Py.code c =? 45).

Definition is_zero_digit (c : ascii) : bool := Py.code c =? 48.

(** Two labels that differ in letter case and outer white space only. *)
Definition same_label (a b : string) : Prop :=
  Py.lower (Py.strip a) = Py.lower (Py.strip b).

(** At most one row has an identifier equal to [n]. *)
Definition unique_id (n : Z) (ids : list Pd.scalar) : Prop :=
  forall i j a b,
    nth_error ids i = Some a -> nth_error ids j = Some b ->
    equals n a -> equals n b -> i = j.

(* ================================================================== *)
(** * Strings *)

Lemma startswith_spec (p s : string) :
  Py.startswith p s = true <-> exists suf, s = p ++ suf.
Proof.
  revert s; induction p as [|a p IH]; intros s; simpl.
  - split; [intros _; now exists s | reflexivity].
  - destruct s as [|b s].
    + split; [discriminate | intros [suf H]; discriminate].
    + rewrite andb_true_iff, Ascii.eqb_eq, IH. split.
      * intros [-> [suf ->]]. now exists suf.
      * intros [suf H]. injection H as -> ->. split; [reflexivity | now exists suf].
Qed.

Lemma contains_spec (sub s : string) :
  Py.contains sub s = true <-> is_substring sub s.
Proof.
  induction s as [|c s IH]; simpl.
  - rewrite orb_false_r, startswith_spec. split.
    + intros [suf H]. now exists "", suf.
    + intros [pre [suf H]]. destruct pre; simpl in H.
      * now exists suf.
      * discriminate.
  - rewrite orb_true_iff, startswith_spec, IH. split.
    + intros [[suf H] | [pre [suf H]]].
      * now exists "", suf.
      * exists (String c pre), suf. simpl. now rewrite H.
    + intros [pre [suf H]]. destruct pre as [|x pre]; simpl in H.
      * left. now exists suf.
      * right. injection H as _ H. now exists pre, suf.
Qed.

Lemma lstrip_split (p : ascii -> bool) (s : string) :
  exists l, s = l ++ Py.lstrip p s /\ all_chars p l = true.
Proof.
  induction s as [|c s [l [H1 H2]]]; simpl.
  - now exists "".
  - destruct (p c) eqn:E.
    + exists (String c l). simpl. rewrite E, H2. split; [now f_equal | reflexivity].
    + now exists "".
Qed.

Lemma lstrip_head (p : ascii -> bool) (s : string) c s' :
  Py.lstrip p s = String c s' -> p c = false.
Proof.
  induction s as [|x s IH]; simpl; [discriminate|].
  destruct (p x) eqn:E; [exact IH|].
  intros H. injection H as <- _. exact E.
Qed.

Lemma rstrip_split (p : ascii -> bool) (s : string) :
  exists r, s = Py.rstrip p s ++ r /\ all_chars p r = true.
Proof.
  induction s as [|c s [r [H1 H2]]]; simpl.
  - now exists "".
  - destruct (Py.rstrip p s) as [|y u] eqn:E.
    + destruct (p c) eqn:Ec.
      * exists (String c r). simpl in *. rewrite Ec, H2. now subst.
      * exists r. simpl in *. now subst.
    + exists r. simpl in *. split; [now f_equal | assumption].
Qed.

Lemma rstrip_last (p : ascii -> bool) (s : string) u c :
  Py.rstrip p s = u ++ String c "" -> p c = false.
Proof.
  revert u; induction s as [|x s IH]; intros u; simpl.
  - destruct u; discriminate.
  - destruct (Py.rstrip p s) as [|y v] eqn:E.
    + destruct (p x) eqn:Ex.
      * destruct u; discriminate.
      * destruct u as [|a u]; simpl; intros H.
        -- injection H as <-. exact Ex.
        -- injection H as _ H. destruct u; discriminate.
    + destruct u as [|a u]; simpl; intros H.
      * discriminate.
      * injection H as _ H. exact (IH u H).
Qed.

Lemma rstrip_head (p : ascii -> bool) (s : string) c s' :
  Py.rstrip p s = String c s' -> exists s'', s = String c s''.
Proof.
  destruct s as [|x s]; simpl; [discriminate|].
  destruct (Py.rstrip p s); [destruct (p x)|]; intros H;
    try discriminate; injection H as <- _; now exists s.
Qed.

Lemma strip_trimmed (raw : string) : trimmed_of raw (Py.strip raw).
Proof.
  unfold trimmed_of, clean_ends, Py.strip. repeat split.
  - intros c s' H. destruct (rstrip_head _ _ _ _ H) as [s'' H'].
    exact (lstrip_head _ _ _ _ H').
  - intros s' c H. exact (rstrip_last _ _ _ _ H).
  - destruct (lstrip_split Py.isspace raw) as [l [Hl Hls]].
    destruct (rstrip_split Py.isspace (Py.lstrip Py.isspace raw))
      as [r [Hr Hrs]].
    exists l, r. repeat split; try assumption.
    rewrite <- Hr. exact Hl.
Qed.

(* ================================================================== *)
(** * Column detection *)

Lemma scan_columns_some key cols c :
  scan_columns key cols = Some c -> first_match key cols c.
Proof.
  induction cols as [|x cols IH]; simpl; [discriminate|].
  destruct (Py.contains key (Py.lower x)) eqn:E.
  - intros H. injection H as <-. exists 0. repeat split.
    + now apply contains_spec.
    + intros j c' Hj. lia.
  - intros H. destruct (IH H) as [i [Hi [Hs Hb]]].
    exists (S i). repeat split; try assumption.
    intros [|j] c' Hj Hn; simpl in Hn.
    + injection Hn as <-. rewrite <- contains_spec, E. discriminate.
    + apply (Hb j); [lia | assumption].
Qed.

Lemma scan_columns_none key cols :
  scan_columns key cols = None -> no_match key cols.
Proof.
  induction cols as [|x cols IH]; simpl; intros H c Hin; [contradiction|].
  destruct (Py.contains key (Py.lower x)) eqn:E; [discriminate|].
  destruct Hin as [<- | Hin].
  - rewrite <- contains_spec, E. discriminate.
  - now apply IH.
Qed.

Lemma columns_set_columns (df0 : Pd.DataFrame) (f : string -> string) :
  Pd.columns (Pd.set_columns df0 (map f (Pd.columns df0)))
  = map f (Pd.columns df0).
Proof.
  unfold Pd.columns, Pd.set_columns.
  induction df0 as [|[l s] df0 IH]; simpl; [reflexivity | now rewrite IH].
Qed.

Lemma last_cons (l : list string) (a d : string) :
  last (a :: l) d = last l a.
Proof.
  revert a d; induction l as [|b l IH]; intros a d; [reflexivity|].
  change (last (a :: b :: l) d) with (last (b :: l) d).
  now rewrite (IH b d), (IH b a).
Qed.

Lemma detect_pred_col_spec cols c :
  detect_pred_col cols = Ok c ->
  first_match "prediction" cols c \/
  (no_match "prediction" cols /\ c = last cols "").
Proof.
  unfold detect_pred_col.
  destruct (scan_columns "prediction" cols) as [x|] eqn:E.
  - intros H. injection H as <-. left. now apply scan_columns_some.
  - intros H. right. split; [now apply scan_columns_none|].
    destruct cols as [|a cols]; simpl in H; [discriminate|].
    injection H as <-. symmetry. apply last_cons.
Qed.

Lemma detect_id_col_spec cols c :
  detect_id_col cols = Ok c ->
  first_match "transaction" cols c \/
  (no_match "transaction" cols /\ c = hd "" cols).
Proof.
  unfold detect_id_col.
  destruct (scan_columns "transaction" cols) as [x|] eqn:E.
  - intros H. injection H as <-. left. now apply scan_columns_some.
  - intros H. right. split; [now apply scan_columns_none|].
    destruct cols as [|a cols]; simpl in H; [discriminate|].
    now injection H as <-.
Qed.

Lemma detect_total cols :
  cols <> [] ->
  exists p i, detect_pred_col cols = Ok p /\ detect_id_col cols = Ok i.
Proof.
  intros H. destruct cols as [|a cols]; [contradiction|].
  unfold detect_pred_col, detect_id_col.
  destruct (scan_columns "prediction" (a :: cols));
    destruct (scan_columns "transaction" (a :: cols)); simpl; eauto.
Qed.

Lemma detect_columns_inv df0 t :
  detect_columns df0 = Ok t ->
  df t = Pd.set_columns df0 (map Py.strip (Pd.columns df0)) /\
  detect_pred_col (Pd.columns (df t)) = Ok (pred_col t) /\
  detect_id_col (Pd.columns (df t)) = Ok (id_col t).
Proof.
  unfold detect_columns. intros H.
  destruct (detect_pred_col _) as [p|] eqn:Ep; simpl in H; [|discriminate].
  destruct (detect_id_col _) as [i|] eqn:Ei; simpl in H; [|discriminate].
  injection H as <-. simpl. auto.
Qed.

(** C2. For a loaded frame with at least one column, the labels are the
    file's labels with leading and trailing white space removed;
    [pred_col] is the first label, in file order, whose lower-cased text
    contains "prediction", or the last label when none does; [id_col] is
    the first whose lower-cased text contains "transaction", or the first
    label when none does.  Both are fixed by the one call of
    [detect_columns]. *)
Theorem column_resolution (df0 : Pd.DataFrame) :
  Pd.columns df0 <> [] ->
  exists t,
    detect_columns df0 = Ok t /\
    Forall2 trimmed_of (Pd.columns df0) (Pd.columns (df t)) /\
    (first_match "prediction" (Pd.columns (df t)) (pred_col t) \/
     (no_match "prediction" (Pd.columns (df t)) /\
      pred_col t = last (Pd.columns (df t)) "")) /\
    (first_match "transaction" (Pd.columns (df t)) (id_col t) \/
     (no_match "transaction" (Pd.columns (df t)) /\
      id_col t = hd "" (Pd.columns (df t)))).
Proof.
  intros Hne.
  assert (Hne' : map Py.strip (Pd.columns df0) <> []).
  { destruct (Pd.columns df0); [contradiction | discriminate]. }
  destruct (detect_total _ Hne') as [p [i [Hp Hi]]].
  set (df1 := Pd.set_columns df0 (map Py.strip (Pd.columns df0))).
  exists {| df := df1; pred_col := p; id_col := i |}. simpl.
  assert (Hc : Pd.columns df1 = map Py.strip (Pd.columns df0))
    by apply columns_set_columns.
  repeat split.
  - unfold detect_columns. fold df1. rewrite Hc, Hp. simpl. now rewrite Hi.
  - rewrite Hc. clear. induction (Pd.columns df0); simpl; constructor;
      [apply strip_trimmed | assumption].
  - rewrite Hc. now apply detect_pred_col_spec.
  - rewrite Hc. now apply detect_id_col_spec.
Qed.

(* ================================================================== *)
(** * Frames, masks and rows *)

Lemma values_length (s : Pd.Series) :
  List.length (Pd.values s) = Pd.len_series s.
Proof. destruct s; simpl; apply length_map. Qed.

Lemma select_map {A B : Type} (f : A -> B) (m : list bool) (xs : list A) :
  Pd.select m (map f xs) = map f (Pd.select m xs).
Proof.
  revert xs; induction m as [|b m IH]; intros [|x xs]; simpl; try reflexivity.
  destruct b; simpl; now rewrite IH.
Qed.

Lemma values_select (m : list bool) (s : Pd.Series) :
  Pd.values (Pd.select_series m s) = Pd.select m (Pd.values s).
Proof. destruct s; simpl; now rewrite select_map. Qed.

Lemma values_head (n : nat) (s : Pd.Series) :
  Pd.values (Pd.head_series n s) = firstn n (Pd.values s).
Proof. destruct s; simpl; now rewrite firstn_map. Qed.

Lemma cells_getitem_mask (df : Pd.DataFrame) (m : list bool) :
  cells (Pd.getitem_mask df m) = map (Pd.select m) (cells df).
Proof.
  unfold cells, Pd.getitem_mask. rewrite !map_map.
  apply map_ext. intros [l s]. simpl. apply values_select.
Qed.

Lemma cells_head (df : Pd.DataFrame) (n : nat) :
  cells (Pd.head n df) = map (firstn n) (cells df).
Proof.
  unfold cells, Pd.head. rewrite !map_map.
  apply map_ext. intros [l s]. simpl. apply values_head.
Qed.

Lemma columns_getitem_mask (df : Pd.DataFrame) (m : list bool) :
  Pd.columns (Pd.getitem_mask df m) = Pd.columns df.
Proof.
  unfold Pd.columns, Pd.getitem_mask. rewrite map_map.
  apply map_ext. now intros [l s].
Qed.

Lemma columns_head (df : Pd.DataFrame) (n : nat) :
  Pd.columns (Pd.head n df) = Pd.columns df.
Proof.
  unfold Pd.columns, Pd.head. rewrite map_map.
  apply map_ext. now intros [l s].
Qed.

Lemma getitem_getitem_mask (df : Pd.DataFrame) (m : list bool) (c : string) :
  Pd.getitem (Pd.getitem_mask df m) c
  = match Pd.getitem df c with
    | Ok s => Ok (Pd.select_series m s)
    | Raise e => Raise e
    end.
Proof.
  induction df as [|[l s] df IH]; simpl; [reflexivity|].
  destruct (String.eqb l c); [reflexivity | exact IH].
Qed.

Lemma getitem_In (df : Pd.DataFrame) (c : string) (s : Pd.Series) :
  Pd.getitem df c = Ok s -> exists l, In (l, s) df.
Proof.
  induction df as [|[l x] df IH]; simpl; [discriminate|].
  destruct (String.eqb l c).
  - intros H. injection H as <-. exists l. now left.
  - intros H. destruct (IH H) as [l' Hl]. exists l'. now right.
Qed.

Lemma getitem_present (df : Pd.DataFrame) (c : string) :
  In c (Pd.columns df) -> exists s, Pd.getitem df c = Ok s.
Proof.
  induction df as [|[l x] df IH]; simpl; [contradiction|].
  intros H. destruct (String.eqb_spec l c) as [E|E].
  - now exists x.
  - destruct H as [H|H]; [contradiction | now apply IH].
Qed.

Lemma getitem_position (df : Pd.DataFrame) (c : string) (s : Pd.Series) :
  Pd.getitem df c = Ok s ->
  exists j, Pd.position c (Pd.columns df) = Some j /\
            j < List.length (cells df) /\
            nth j (cells df) [] = Pd.values s.
Proof.
  induction df as [|[l x] df IH]; simpl; [discriminate|].
  destruct (String.eqb l c).
  - intros H. injection H as <-. exists 0. repeat split. lia.
  - intros H. destruct (IH H) as [j [Hj [Hlt Hn]]].
    exists (S j). rewrite Hj. repeat split; [lia | exact Hn].
Qed.

Lemma rectangular_In (df : Pd.DataFrame) (l : string) (s : Pd.Series) :
  Pd.rectangular df = true -> In (l, s) df -> Pd.len_series s = Pd.len df.
Proof.
  unfold Pd.rectangular. rewrite forallb_forall. intros H Hin.
  apply Nat.eqb_eq. exact (H (l, s) Hin).
Qed.

Lemma rectangular_cells (df : Pd.DataFrame) :
  Pd.rectangular df = true ->
  Forall (fun c => List.length c = Pd.len df) (cells df).
Proof.
  intros H. unfold cells. apply Forall_forall. intros c Hc.
  apply in_map_iff in Hc. destruct Hc as [[l s] [<- Hin]]. simpl.
  rewrite values_length. exact (rectangular_In _ _ _ H Hin).
Qed.

Lemma well_formed_rectangular (df : Pd.DataFrame) :
  Pd.well_formed df = true -> Pd.rectangular df = true.
Proof. unfold Pd.well_formed. rewrite !andb_true_iff. tauto. Qed.

Lemma well_formed_distinct (df : Pd.DataFrame) :
  Pd.well_formed df = true -> Pd.distinct (Pd.columns df) = true.
Proof. unfold Pd.well_formed. rewrite !andb_true_iff. tauto. Qed.

Lemma well_formed_typed (df : Pd.DataFrame) (l : string) (s : Pd.Series) :
  Pd.well_formed df = true -> In (l, s) df -> Pd.typed s = true.
Proof.
  unfold Pd.well_formed. rewrite !andb_true_iff. intros [_ H] Hin.
  rewrite forallb_forall in H. exact (H (l, s) Hin).
Qed.

Lemma eq_length (s : Pd.Series) (n : Z) :
  List.length (Pd.eq s n) = List.length (Pd.values s).
Proof. unfold Pd.eq. apply length_map. Qed.



Lemma select_length {A : Type} (m : list bool) (xs : list A) :
  List.length m = List.length xs -> List.length (Pd.select m xs) = hits m.
Proof.
  unfold hits. revert xs; induction m as [|b m IH]; intros [|x xs] H;
    simpl in *; try reflexivity; try discriminate.
  injection H as H. destruct b; simpl; now rewrite IH.
Qed.

Lemma select_filter {A : Type} (p : A -> bool) (xs : list A) :
  Pd.select (map p xs) xs = filter p xs.
Proof.
  induction xs as [|x xs IH]; simpl; [reflexivity|].
  destruct (p x); now rewrite IH.
Qed.

Lemma len_getitem_mask (df : Pd.DataFrame) (m : list bool) :
  df <> [] -> Pd.rectangular df = true -> List.length m = Pd.len df ->
  Pd.len (Pd.getitem_mask df m) = hits m.
Proof.
  destruct df as [|[l s] df]; [contradiction|]. intros _ _ Hm. simpl in *.
  rewrite <- values_length, values_select. apply select_length.
  now rewrite values_length.
Qed.

Lemma len_head (df : Pd.DataFrame) (n : nat) :
  Pd.len (Pd.head n df) = Nat.min n (Pd.len df).
Proof.
  destruct df as [|[l s] df]; simpl; [now rewrite Nat.min_0_r|].
  rewrite <- !values_length, values_head. apply length_firstn.
Qed.

Lemma transpose_select (m : list bool) (cols : list (list Pd.scalar)) :
  Forall (fun c => List.length c = List.length m) cols ->
  Pd.transpose (hits m) (map (Pd.select m) cols)
  = Pd.select m (Pd.transpose (List.length m) cols).
Proof.
  revert cols; induction m as [|b m IH]; intros cols H; [reflexivity|].
  assert (Ht : Forall (fun c => List.length c = List.length m) (map (@tl _) cols)).
  { apply Forall_forall. intros c Hc. apply in_map_iff in Hc.
    destruct Hc as [c' [<- Hin]]. rewrite Forall_forall in H.
    specialize (H c' Hin). destruct c'; simpl in *; [discriminate | lia]. }
  assert (Hs : map (Pd.select (b :: m)) cols
               = if b then map (fun c => hd (Pd.FloatVal Pd.NaN) c
                                         :: Pd.select m (tl c)) cols
                 else map (fun c => Pd.select m (tl c)) cols).
  { destruct b; apply map_ext_in; intros c Hin; rewrite Forall_forall in H;
      specialize (H c Hin); destruct c; simpl in *; try discriminate;
      reflexivity. }
  rewrite Hs. simpl List.length. simpl Pd.transpose. unfold hits. simpl.
  fold (hits m). destruct b; simpl.
  - rewrite !map_map. simpl. f_equal.
    rewrite <- (IH _ Ht). now rewrite map_map.
  - rewrite <- (IH _ Ht). now rewrite map_map.
Qed.

Lemma transpose_firstn (n k : nat) (cols : list (list Pd.scalar)) :
  Forall (fun c => List.length c = k) cols ->
  Pd.transpose (Nat.min n k) (map (firstn n) cols)
  = firstn n (Pd.transpose k cols).
Proof.
  revert k cols; induction n as [|n IH]; intros k cols H; [reflexivity|].
  destruct k as [|k]; [reflexivity|]. simpl.
  assert (Ht : Forall (fun c => List.length c = k) (map (@tl _) cols)).
  { apply Forall_forall. intros c Hc. apply in_map_iff in Hc.
    destruct Hc as [c' [<- Hin]]. rewrite Forall_forall in H.
    specialize (H c' Hin). destruct c'; simpl in *; [discriminate | lia]. }
  rewrite <- (IH _ _ Ht). rewrite !map_map. f_equal.
  - apply map_ext_in. intros c Hin. rewrite Forall_forall in H.
    specialize (H c Hin). destruct c; [discriminate | reflexivity].
  - f_equal. apply map_ext_in. intros c Hin. rewrite Forall_forall in H.
    specialize (H c Hin). destruct c; [discriminate | reflexivity].
Qed.

Lemma transpose_column (k j : nat) (cols : list (list Pd.scalar)) :
  Forall (fun c => List.length c = k) cols ->
  j < List.length cols ->
  map (Pd.cell j) (Pd.transpose k cols) = nth j cols [].
Proof.
  revert cols; induction k as [|k IH]; intros cols H Hj; simpl.
  - rewrite Forall_forall in H.
    specialize (H (nth j cols []) (nth_In _ _ Hj)).
    now destruct (nth j cols []).
  - assert (Ht : Forall (fun c => List.length c = k) (map (@tl _) cols)).
    { apply Forall_forall. intros c Hc. apply in_map_iff in Hc.
      destruct Hc as [c' [<- Hin]]. rewrite Forall_forall in H.
      specialize (H c' Hin). destruct c'; simpl in *; [discriminate | lia]. }
    rewrite (IH _ Ht) by now rewrite length_map.
    unfold Pd.cell.
    pose proof (map_nth (hd (Pd.FloatVal Pd.NaN)) cols [] j) as E1.
    pose proof (map_nth (@tl Pd.scalar) cols [] j) as E2.
    simpl in E1, E2. rewrite E1, E2.
    rewrite Forall_forall in H.
    specialize (H (nth j cols []) (nth_In _ _ Hj)).
    now destruct (nth j cols []).
Qed.

Lemma records_head_mask (df : Pd.DataFrame) (m : list bool) (n : nat) :
  df <> [] -> Pd.rectangular df = true -> List.length m = Pd.len df ->
  Pd.records (Pd.head n (Pd.getitem_mask df m))
  = firstn n (Pd.select m (Pd.records df)).
Proof.
  intros Hne Hr Hm. unfold Pd.records. fold (cells df).
  fold (cells (Pd.head n (Pd.getitem_mask df m))).
  rewrite len_head, (len_getitem_mask _ _ Hne Hr Hm).
  rewrite cells_head, cells_getitem_mask.
  pose proof (rectangular_cells _ Hr) as Hc.
  rewrite transpose_firstn.
  - rewrite transpose_select; [now rewrite Hm|].
    rewrite Hm. exact Hc.
  - apply Forall_forall. intros c Hin. apply in_map_iff in Hin.
    destruct Hin as [c' [<- Hin]]. apply select_length.
    rewrite Forall_forall in Hc. rewrite (Hc c' Hin). exact Hm.
Qed.

Lemma records_column (df : Pd.DataFrame) (c : string) (s : Pd.Series) :
  Pd.rectangular df = true -> Pd.getitem df c = Ok s ->
  exists j, Pd.position c (Pd.columns df) = Some j /\
            map (Pd.cell j) (Pd.records df) = Pd.values s.
Proof.
  intros Hr Hg. destruct (getitem_position _ _ _ Hg) as [j [Hp [Hlt Hn]]].
  exists j. split; [exact Hp|]. unfold Pd.records. fold (cells df).
  rewrite transpose_column; [exact Hn | now apply rectangular_cells | exact Hlt].
Qed.

Lemma getitem_len (df : Pd.DataFrame) (c : string) (s : Pd.Series) :
  Pd.rectangular df = true -> Pd.getitem df c = Ok s ->
  List.length (Pd.values s) = Pd.len df.
Proof.
  intros Hr Hg. destruct (getitem_In _ _ _ Hg) as [l Hl].
  rewrite values_length. exact (rectangular_In _ _ _ Hr Hl).
Qed.

Lemma getitem_nonempty (df : Pd.DataFrame) (c : string) (s : Pd.Series) :
  Pd.getitem df c = Ok s -> df <> [].
Proof. destruct df; [discriminate | intros _; discriminate]. Qed.

(* ================================================================== *)
(** * Loaded tables *)

Lemma scan_columns_In key cols c : scan_columns key cols = Some c -> In c cols.
Proof.
  induction cols as [|x cols IH]; simpl; [discriminate|].
  destruct (Py.contains key (Py.lower x)).
  - intros H. injection H as <-. now left.
  - intros H. right. now apply IH.
Qed.

Lemma detect_pred_col_In cols c : detect_pred_col cols = Ok c -> In c cols.
Proof.
  unfold detect_pred_col.
  destruct (scan_columns "prediction" cols) eqn:E.
  - intros H. injection H as <-. exact (scan_columns_In _ _ _ E).
  - destruct cols as [|a cols]; simpl; [discriminate|].
    intros H. injection H as <-.
    destruct (exists_last (l := a :: cols)) as [l' [z Hz]]; [discriminate|].
    rewrite <- (last_cons cols a a), Hz, last_last.
    change (In z (a :: cols)). rewrite Hz. apply in_or_app. right. now left.
Qed.

Lemma detect_id_col_In cols c : detect_id_col cols = Ok c -> In c cols.
Proof.
  unfold detect_id_col.
  destruct (scan_columns "transaction" cols) eqn:E.
  - intros H. injection H as <-. exact (scan_columns_In _ _ _ E).
  - destruct cols as [|a cols]; simpl; [discriminate|].
    intros H. injection H as <-. now left.
Qed.

Lemma loaded_columns df0 t :
  detect_columns df0 = Ok t ->
  exists preds ids,
    Pd.getitem (df t) (pred_col t) = Ok preds /\
    Pd.getitem (df t) (id_col t) = Ok ids.
Proof.
  intros H. destruct (detect_columns_inv _ _ H) as [_ [Hp Hi]].
  destruct (getitem_present _ _ (detect_pred_col_In _ _ Hp)) as [preds Hpreds].
  destruct (getitem_present _ _ (detect_id_col_In _ _ Hi)) as [ids Hids].
  now exists preds, ids.
Qed.

(* ================================================================== *)
(** * Samples *)

Lemma sample_ids_unfold t p limit preds ids :
  Pd.getitem (df t) (pred_col t) = Ok preds ->
  Pd.getitem (df t) (id_col t) = Ok ids ->
  sample_ids t p limit
  = Ok (firstn limit (Pd.select (map p (Pd.values preds)) (Pd.values ids))).
Proof.
  intros Hp Hi. unfold sample_ids. rewrite Hp. simpl.
  rewrite getitem_getitem_mask, Hi. simpl.
  now rewrite values_head, values_select.
Qed.

(** C8. [sample] returns the first [min limit k] rows, in table order, whose
    prediction cell satisfies the predicate, [k] being the number of such
    rows: nothing is raised when none or fewer than [limit] match, and the
    rows are not padded.  The quick-test identifiers are the identifier
    cells of those rows. *)
Theorem sample_first_matches df0 t (predicate : Pd.scalar -> bool) (limit : nat) :
  detect_columns df0 = Ok t ->
  Pd.well_formed (df t) = true ->
  exists r j i,
    sample t predicate limit = Ok r /\
    Pd.position (pred_col t) (Pd.columns (df t)) = Some j /\
    Pd.position (id_col t) (Pd.columns (df t)) = Some i /\
    Pd.columns r = Pd.columns (df t) /\
    Pd.records r
    = firstn limit
        (filter (fun row => predicate (Pd.cell j row)) (Pd.records (df t))) /\
    List.length (Pd.records r)
    = Nat.min limit
        (List.length
           (filter (fun row => predicate (Pd.cell j row)) (Pd.records (df t)))) /\
    sample_ids t predicate limit = Ok (map (Pd.cell i) (Pd.records r)).
Proof.
  intros Hd Hwf. pose proof (well_formed_rectangular _ Hwf) as Hr.
  destruct (loaded_columns _ _ Hd) as [preds [ids [Hp Hi]]].
  destruct (records_column _ _ _ Hr Hp) as [j [Hj Hcj]].
  destruct (records_column _ _ _ Hr Hi) as [i [Hpi Hci]].
  set (m := map predicate (Pd.values preds)).
  assert (Hm : List.length m = Pd.len (df t)).
  { unfold m. rewrite length_map. exact (getitem_len _ _ _ Hr Hp). }
  assert (Hrec : Pd.records (Pd.head limit (Pd.getitem_mask (df t) m))
                 = firstn limit
                     (filter (fun row => predicate (Pd.cell j row))
                        (Pd.records (df t)))).
  { rewrite (records_head_mask _ _ _ (getitem_nonempty _ _ _ Hp) Hr Hm).
    f_equal. unfold m. rewrite <- Hcj, map_map. apply select_filter. }
  exists (Pd.head limit (Pd.getitem_mask (df t) m)), j, i.
  repeat split; try assumption.
  - unfold sample. now rewrite Hp.
  - now rewrite columns_head, columns_getitem_mask.
  - rewrite Hrec. apply length_firstn.
  - rewrite (sample_ids_unfold _ _ _ _ _ Hp Hi). f_equal.
    rewrite (records_head_mask _ _ _ (getitem_nonempty _ _ _ Hp) Hr Hm).
    fold m. now rewrite <- firstn_map, <- select_map, Hci.
Qed.

(* ================================================================== *)
(** * Lookup *)

Lemma eq_int_equals (x : Pd.scalar) (n : Z) :
  Pd.eq_int x n = true <-> equals n x.
Proof.
  destruct x as [z|[q|]]; simpl.
  - apply Z.eqb_eq.
  - apply Qeq_bool_iff.
  - split; [discriminate | contradiction].
Qed.

Lemma flagged_is_one (x : Pd.scalar) : flagged x = true <-> is_one x.
Proof.
  unfold flagged. rewrite orb_true_iff.
  destruct x as [z|[q|]]; simpl.
  - rewrite Z.eqb_eq, Qeq_bool_iff. unfold Qeq. simpl. lia.
  - rewrite !Qeq_bool_iff. change (inject_Z 1) with 1%Q. tauto.
  - split; [intros [H|H]; discriminate | contradiction].
Qed.

Lemma select_first {A B : Type} (f : A -> bool) (xs : list A) (ys : list B)
  (i : nat) (x : A) (y : B) :
  nth_error xs i = Some x -> f x = true ->
  (forall j x', j < i -> nth_error xs j = Some x' -> f x' = false) ->
  nth_error ys i = Some y ->
  exists rest, Pd.select (map f xs) ys = y :: rest.
Proof.
  revert ys i; induction xs as [|a xs IH]; intros ys i Hx Hf Hb Hy.
  - destruct i; discriminate.
  - destruct ys as [|b ys]; [destruct i; discriminate|].
    destruct i as [|i]; simpl in *.
    + injection Hx as ->. injection Hy as ->. rewrite Hf. eauto.
    + rewrite (Hb 0 a) by (simpl; auto; lia).
      apply (IH ys i); try assumption.
      intros j x' Hj Hn. apply (Hb (S j)); [lia | exact Hn].
Qed.





(* ================================================================== *)
(** * Metrics *)

Lemma int_sum (s : Pd.Series) : Pd.int (Pd.sum s) = Ok (fraud_of s).
Proof. now destruct s. Qed.

Lemma summarize_unfold t preds :
  Pd.getitem (df t) (pred_col t) = Ok preds ->
  summarize t
  = Ok {| total := Z.of_nat (Pd.len (df t));
          fraud := fraud_of preds;
          legit := Z.of_nat (Pd.len (df t)) - fraud_of preds;
          fraud_rate := rate_of (fraud_of preds) (Z.of_nat (Pd.len (df t))) |}.
Proof.
  intros Hp. unfold summarize, rate_of. rewrite Hp. simpl.
  rewrite int_sum. simpl.
  destruct (0 <? Z.of_nat (Pd.len (df t)))%Z eqn:E; [|reflexivity].
  unfold Pd.truediv.
  destruct (Z.eqb_spec (Z.of_nat (Pd.len (df t))) 0) as [H|H]; [|reflexivity].
  rewrite H in E. discriminate.
Qed.

Lemma summarize_raises t e :
  summarize t = Raise e -> Pd.getitem (df t) (pred_col t) = Raise e.
Proof.
  destruct (Pd.getitem (df t) (pred_col t)) as [preds|e'] eqn:Hp.
  - rewrite (summarize_unfold _ _ Hp). discriminate.
  - unfold summarize. rewrite Hp. simpl. intros H. now injection H as ->.
Qed.

Lemma getitem_raises (df : Pd.DataFrame) (c : string) (e : exn) :
  Pd.getitem df c = Raise e -> e = KeyError.
Proof.
  induction df as [|[l s] df IH]; simpl.
  - intros H. now injection H.
  - destruct (String.eqb l c); [discriminate | exact IH].
Qed.

Lemma wrap64_small (z : Z) :
  (- 2 ^ 63 <= z < 2 ^ 63)%Z -> Pd.wrap64 z = z.
Proof.
  intros H. unfold Pd.wrap64. rewrite Z.mod_small; lia.
Qed.

Lemma trunc_inject (q : Q) (z : Z) : (q == inject_Z z)%Q -> Pd.trunc q = z.
Proof.
  destruct q as [a b]. unfold Qeq, Pd.trunc. simpl. intros H.
  rewrite Z.mul_1_r in H. rewrite H. apply Z.quot_mul. discriminate.
Qed.

Lemma flagged_zero (x : Pd.scalar) : is_zero x -> flagged x = false.
Proof.
  intros H. destruct (flagged x) eqn:E; [|reflexivity].
  apply flagged_is_one in E. destruct x as [z|[q|]]; simpl in *.
  - lia.
  - rewrite H in E. discriminate.
  - contradiction.
Qed.

Lemma isum_binary (xs : list Z) :
  (forall x, In x (map Pd.IntVal xs) -> binary x) ->
  Pd.isum xs = Z.of_nat (List.length (filter flagged (map Pd.IntVal xs))).
Proof.
  induction xs as [|z xs IH]; intros H; [reflexivity|].
  assert (IH' := IH (fun x Hx => H x (or_intror Hx))).
  cbn [Pd.isum map filter]. rewrite IH'.
  destruct (H (Pd.IntVal z) (or_introl eq_refl)) as [H1 | [H0 | Hn]].
  - rewrite (proj2 (flagged_is_one _) H1). simpl in H1. subst z.
    cbn [List.length]. lia.
  - rewrite (flagged_zero _ H0). simpl in H0. subst z. lia.
  - discriminate.
Qed.

Lemma nansum_binary (xs : list Pd.float64) :
  (forall x, In x (map Pd.FloatVal xs) -> binary x) ->
  (Pd.nansum xs
   == inject_Z (Z.of_nat (List.length (filter flagged (map Pd.FloatVal xs)))))%Q.
Proof.
  induction xs as [|x xs IH]; intros H; [reflexivity|].
  assert (IH' := IH (fun x Hx => H x (or_intror Hx))).
  cbn [map filter].
  destruct (H (Pd.FloatVal x) (or_introl eq_refl)) as [H1 | [H0 | Hn]].
  - rewrite (proj2 (flagged_is_one _) H1). destruct x as [q|]; [|contradiction].
    simpl in H1. cbn [Pd.nansum List.length]. rewrite IH', H1.
    rewrite Nat2Z.inj_succ. unfold Z.succ. rewrite inject_Z_plus.
    change (inject_Z 1) with 1%Q. ring.
  - rewrite (flagged_zero _ H0). destruct x as [q|]; [|contradiction].
    simpl in H0. cbn [Pd.nansum]. rewrite IH', H0. ring.
  - injection Hn as ->. cbn [Pd.nansum]. exact IH'.
Qed.

Lemma fraud_of_binary (preds : Pd.Series) :
  (forall x, In x (Pd.values preds) -> binary x) ->
  (Z.of_nat (Pd.len_series preds) < 2 ^ 63)%Z ->
  fraud_of preds = Z.of_nat (List.length (filter flagged (Pd.values preds))).
Proof.
  intros Hb Hlen. destruct preds as [xs|xs]; simpl in *.
  - rewrite (isum_binary _ Hb). apply wrap64_small.
    pose proof (filter_length_le flagged (map Pd.IntVal xs)) as Hle.
    rewrite length_map in Hle. lia.
  - apply trunc_inject. now apply nansum_binary.
Qed.

(** C1, as stated, fails: one record with prediction 2 is counted as two
    frauds, although no record has a prediction equal to 1. *)
Lemma fraud_count_is_sum_not_count :
  detect_columns off_label_frame = Ok off_label_table /\
  Pd.well_formed (df off_label_table) = true /\
  Pd.getitem (df off_label_table) (pred_col off_label_table)
  = Ok (Pd.Int64 [2%Z]) /\
  List.length (filter flagged (Pd.values (Pd.Int64 [2%Z]))) = 0 /\
  summarize off_label_table
  = Ok {| total := 1; fraud := 2; legit := -1; fraud_rate := 200 # 1 |}.
Proof. repeat split; reflexivity. Qed.

(** C1, amended. On a loaded table whose prediction cells are each 1, 0
    (as integers or floats) or missing, and which has fewer than 2^63
    records, [fraud] is the number of records whose prediction cell equals
    1 or 1.0. *)
Theorem fraud_count_binary df0 t preds :
  detect_columns df0 = Ok t ->
  Pd.well_formed (df t) = true ->
  Pd.getitem (df t) (pred_col t) = Ok preds ->
  (forall x, In x (Pd.values preds) -> binary x) ->
  (Z.of_nat (Pd.len_series preds) < 2 ^ 63)%Z ->
  exists m,
    summarize t = Ok m /\
    fraud m = Z.of_nat (List.length (filter flagged (Pd.values preds))).
Proof.
  intros _ _ Hp Hb Hlen. eexists. split; [exact (summarize_unfold _ _ Hp)|].
  simpl. now apply fraud_of_binary.
Qed.

(** C7. [summarize] never raises [ZeroDivisionError]; whenever it returns,
    [legit] is [total - fraud], and [fraud_rate] is [fraud / total * 100]
    when [total > 0] and 0 when [total = 0]; on a loaded table it does
    return, and on a loaded table without records it returns zero counts
    and a zero rate. *)
Theorem summarize_division_safe (t : Table) :
  summarize t <> Raise ZeroDivisionError /\
  (forall m, summarize t = Ok m ->
     total m = Z.of_nat (Pd.len (df t)) /\
     legit m = (total m - fraud m)%Z /\
     ((0 < total m)%Z ->
      fraud_rate m = (Qmake (fraud m) 1 / Qmake (total m) 1 * inject_Z 100)%Q) /\
     (total m = 0%Z -> fraud_rate m = 0%Q)) /\
  (forall df0, detect_columns df0 = Ok t -> Pd.well_formed (df t) = true ->
     exists m, summarize t = Ok m) /\
  (forall df0, detect_columns df0 = Ok t ->
     Pd.well_formed (df t) = true -> Pd.len (df t) = 0 ->
     summarize t
     = Ok {| total := 0; fraud := 0; legit := 0; fraud_rate := 0 |}).
Proof.
  split; [|split; [|split]].
  - intros H. apply summarize_raises, getitem_raises in H. discriminate.
  - intros m Hm.
    destruct (Pd.getitem (df t) (pred_col t)) as [preds|e] eqn:Hp.
    + rewrite (summarize_unfold _ _ Hp) in Hm. injection Hm as <-. simpl.
      unfold rate_of. repeat split.
      * intros H. apply Z.ltb_lt in H. now rewrite H.
      * intros H. now rewrite H.
    + unfold summarize in Hm. rewrite Hp in Hm. discriminate.
  - intros df0 Hd _. destruct (loaded_columns _ _ Hd) as [preds [_ [Hp _]]].
    eexists. exact (summarize_unfold _ _ Hp).
  - intros df0 Hd Hwf H0.
    destruct (loaded_columns _ _ Hd) as [preds [_ [Hp _]]].
    rewrite (summarize_unfold _ _ Hp), H0.
    pose proof (getitem_len _ _ _ (well_formed_rectangular _ Hwf) Hp) as Hl.
    rewrite H0, values_length in Hl.
    destruct preds as [[|x xs]|[|x xs]]; try discriminate; reflexivity.
Qed.

(* ================================================================== *)
(** * The two sample classes *)

(** C4, as stated, fails: a prediction cell 2 is not equal to 1, and the
    legitimate filter [== 0] does not select it either. *)
Lemma legit_filter_misses_off_labels :
  flagged (Pd.IntVal 2) = false /\
  isFraud (Pd.IntVal 2) = false /\
  isLegit (Pd.IntVal 2) = false /\
  sample off_label_table isLegit 10
  = Ok [("TransactionID", Pd.Int64 []); ("prediction", Pd.Int64 [])] /\
  sample off_label_table isFraud 10
  = Ok [("TransactionID", Pd.Int64 []); ("prediction", Pd.Int64 [])].
Proof. repeat split; reflexivity. Qed.

(** C4, amended. The legitimate filter selects exactly the records whose
    prediction cell equals 0 or 0.0, the fraud filter exactly those whose
    prediction cell equals 1 or 1.0; no record is in both classes, and a
    record whose prediction cell is 0 or 1 is in exactly one. *)
Theorem sample_classes (x : Pd.scalar) :
  (isLegit x = true <-> is_zero x) /\
  (isFraud x = true <-> is_one x) /\
  (isFraud x = flagged x) /\
  (isFraud x && isLegit x = false) /\
  (is_one x \/ is_zero x -> xorb (isFraud x) (isLegit x) = true).
Proof.
  assert (HL : isLegit x = true <-> is_zero x).
  { unfold isLegit. rewrite eq_int_equals. now destruct x as [z|[q|]]. }
  assert (HF : isFraud x = true <-> is_one x).
  { unfold isFraud. rewrite eq_int_equals. now destruct x as [z|[q|]]. }
  assert (Hex : is_one x -> is_zero x -> False).
  { destruct x as [z|[q|]]; simpl; intros H1 H0.
    - lia.
    - rewrite H1 in H0. discriminate.
    - exact H1. }
  assert (HnL : is_one x -> isLegit x = false).
  { intros H. apply not_true_is_false. rewrite HL. intros H0. now apply Hex. }
  assert (HnF : is_zero x -> isFraud x = false).
  { intros H. apply not_true_is_false. rewrite HF. intros H1. now apply Hex. }
  repeat split; try (apply HL); try (apply HF).
  - apply eq_true_iff_eq. rewrite HF, flagged_is_one. tauto.
  - apply not_true_is_false. rewrite andb_true_iff, HF, HL. tauto.
  - intros [H|H].
    + now rewrite (proj2 HF H), (HnL H).
    + now rewrite (proj2 HL H), (HnF H).
Qed.

(* ================================================================== *)
(** * Parsing the typed identifier *)

Lemma rstrip_all (p : ascii -> bool) (s : string) :
  all_chars p s = true -> Py.rstrip p s = "".
Proof.
  induction s as [|c s IH]; simpl; [reflexivity|].
  rewrite andb_true_iff. intros [Hc Hs]. now rewrite (IH Hs), Hc.
Qed.

Lemma lstrip_app (p : ascii -> bool) (l s : string) :
  all_chars p l = true -> Py.lstrip p (l ++ s) = Py.lstrip p s.
Proof.
  induction l as [|c l IH]; simpl; [reflexivity|].
  rewrite andb_true_iff. intros [Hc Hl]. rewrite Hc. now apply IH.
Qed.

Lemma rstrip_app (p : ascii -> bool) (s r : string) :
  all_chars p r = true -> Py.rstrip p (s ++ r) = Py.rstrip p s.
Proof.
  intros Hr. induction s as [|c s IH]; simpl.
  - now apply rstrip_all.
  - now rewrite IH.
Qed.

(** Stripping keeps a property that all characters have. *)
Lemma lstrip_keeps (p q : ascii -> bool) (s : string) :
  all_chars q s = true -> all_chars q (Py.lstrip p s) = true.
Proof.
  induction s as [|c s IH]; simpl; [reflexivity|].
  rewrite andb_true_iff. intros [Hc Hs].
  destruct (p c); [now apply IH | simpl; now rewrite Hc, Hs].
Qed.

Lemma rstrip_keeps (p q : ascii -> bool) (s : string) :
  all_chars q s = true -> all_chars q (Py.rstrip p s) = true.
Proof.
  induction s as [|c s IH]; simpl; [reflexivity|].
  rewrite andb_true_iff. intros [Hc Hs]. specialize (IH Hs).
  destruct (Py.rstrip p s) as [|y u].
  - destruct (p c); simpl; [reflexivity | now rewrite Hc].
  - simpl in *. now rewrite Hc, IH.
Qed.

Lemma digit_not_ISSPACE (c : ascii) :
  Py.isdigit c = true -> Py.ISSPACE c = false.
Proof.
  unfold Py.isdigit, Py.ISSPACE. intros H.
  apply andb_true_iff in H. destruct H as [H1 H2].
  apply Nat.leb_le in H1. apply orb_false_iff. split.
  - apply andb_false_iff. right. apply Nat.leb_gt. lia.
  - apply Nat.eqb_neq. lia.
Qed.

Lemma digit_not_underscore (c : ascii) :
  Py.isdigit c = true -> Py.is_underscore c = false.
Proof.
  unfold Py.isdigit, Py.is_underscore. intros H.
  apply andb_true_iff in H. destruct H as [H1 H2].
  apply Nat.leb_le in H2. apply Nat.eqb_neq. lia.
Qed.

Lemma split_sign_digit (c : ascii) (s : string) :
  Py.isdigit c = true -> Py.split_sign (String c s) = (false, String c s).
Proof.
  destruct c as [[] [] [] [] [] [] [] []]; try discriminate; reflexivity.
Qed.

(** A white-space character is no sign, no underscore and no digit. *)
Lemma space_is_no_literal (c : ascii) (s : string) :
  Py.isspace c = true ->
  Py.split_sign (String c s) = (false, String c s) /\
  Py.is_underscore c = false /\ Py.isdigit c = false.
Proof.
  destruct c as [[] [] [] [] [] [] [] []]; try discriminate;
    repeat split; reflexivity.
Qed.

Lemma lstrip_digits (ds s : string) :
  all_digits ds = true -> ds <> "" ->
  Py.lstrip Py.ISSPACE (ds ++ s) = ds ++ s.
Proof.
  destruct ds as [|c ds]; [contradiction|]. unfold all_digits. simpl.
  rewrite andb_true_iff. intros [Hc _] _. now rewrite (digit_not_ISSPACE _ Hc).
Qed.

Lemma rstrip_digits (ds : string) :
  all_digits ds = true -> Py.rstrip Py.ISSPACE ds = ds.
Proof.
  unfold all_digits. induction ds as [|c ds IH]; simpl; [reflexivity|].
  rewrite andb_true_iff. intros [Hc Hd]. rewrite (IH Hd).
  destruct ds; [now rewrite (digit_not_ISSPACE _ Hc) | reflexivity].
Qed.

Lemma strip_padded_digits (l ds r : string) :
  all_padding l = true -> all_padding r = true ->
  all_digits ds = true -> ds <> "" ->
  Py.rstrip Py.ISSPACE (Py.lstrip Py.ISSPACE (l ++ ds ++ r)) = ds.
Proof.
  intros Hl Hr Hd Hne.
  rewrite (lstrip_app _ _ _ Hl), (lstrip_digits _ _ Hd Hne).
  rewrite (rstrip_app _ _ _ Hr). now apply rstrip_digits.
Qed.

Lemma scan_digits_all (ds : string) (acc : Z) (n : nat) :
  all_digits ds = true ->
  Py.scan_digits ds acc n false = Some (decimal acc ds, n + String.length ds).
Proof.
  unfold all_digits. revert acc n; induction ds as [|c ds IH]; intros acc n; simpl.
  - intros _. now rewrite Nat.add_0_r.
  - rewrite andb_true_iff. intros [Hc Hd]. rewrite Hc, (IH _ _ Hd).
    now rewrite Nat.add_succ_r.
Qed.

Lemma int_padded_digits (max_str_digits : nat) (l ds r : string) :
  all_padding l = true -> all_padding r = true ->
  all_digits ds = true -> ds <> "" ->
  Py.exceeds_limit max_str_digits (String.length ds) = false ->
  Py.int max_str_digits (l ++ ds ++ r) = Ok (decimal 0 ds).
Proof.
  intros Hl Hr Hd Hne Hlim. unfold Py.int.
  rewrite (strip_padded_digits _ _ _ Hl Hr Hd Hne).
  destruct ds as [|c ds]; [contradiction|].
  assert (Hc : Py.isdigit c = true).
  { unfold all_digits in Hd. simpl in Hd. now apply andb_true_iff in Hd. }
  rewrite (split_sign_digit _ _ Hc), (digit_not_underscore _ Hc).
  rewrite (scan_digits_all _ _ _ Hd). cbv beta iota.
  now rewrite Nat.add_0_l, Hlim.
Qed.

Lemma int_blank (max_str_digits : nat) (s : string) :
  all_space s = true -> Py.int max_str_digits s = Raise ValueError.
Proof.
  intros H. unfold Py.int.
  pose proof (rstrip_keeps Py.ISSPACE Py.isspace _
                (lstrip_keeps Py.ISSPACE Py.isspace _ H)) as Hu.
  destruct (Py.rstrip Py.ISSPACE (Py.lstrip Py.ISSPACE s)) as [|c u];
    [reflexivity|].
  simpl in Hu. apply andb_true_iff in Hu. destruct Hu as [Hc _].
  destruct (space_is_no_literal c u Hc) as [Hs [Hu Hd]].
  rewrite Hs, Hu. simpl. now rewrite Hd, Hu.
Qed.

Lemma int_raises (max_str_digits : nat) (s : string) (e : exn) :
  Py.int max_str_digits s = Raise e -> e = ValueError.
Proof.
  unfold Py.int.
  destruct (Py.split_sign (Py.rstrip Py.ISSPACE (Py.lstrip Py.ISSPACE s)))
    as [neg body].
  destruct body as [|c body]; [intros H; now injection H|].
  destruct (Py.is_underscore c); [intros H; now injection H|].
  destruct (Py.scan_digits _ _ _ _) as [[v n]|]; [|intros H; now injection H].
  destruct (Py.exceeds_limit _ _); [intros H; now injection H | discriminate].
Qed.

(* ================================================================== *)
(** * The lookup widget *)

Section LookupFacts.

Variable max_str_digits : nat.

Lemma lookup_invalid t rawId :
  Py.int max_str_digits rawId = Raise ValueError ->
  lookup max_str_digits t rawId = Ok InvalidId.
Proof. intros H. unfold lookup. now rewrite H. Qed.

Lemma lookup_parsed t rawId n r :
  Py.int max_str_digits rawId = Ok n ->
  lookup max_str_digits t rawId = Ok r ->
  r = Fraudulent \/ r = Legitimate \/ r = NotFound.
Proof.
  intros Hn. unfold lookup. rewrite Hn. simpl.
  destruct (Pd.getitem (df t) (id_col t)) as [ids|e] eqn:Hi; simpl.
  2: { rewrite (getitem_raises _ _ _ Hi). discriminate. }
  destruct (0 <? Pd.len _).
  - destruct (Pd.getitem _ (pred_col t)) as [preds|e] eqn:Hp; simpl.
    2: { rewrite (getitem_raises _ _ _ Hp). discriminate. }
    destruct preds as [[|x xs]|[|x xs]]; simpl; try discriminate.
    + destruct (flagged (Pd.IntVal x)); simpl; intros H; injection H as <-;
        auto.
    + destruct (flagged (Pd.FloatVal x)); simpl; intros H; injection H as <-;
        auto.
  - simpl. intros H. injection H as <-. auto.
Qed.

Lemma lookup_not_empty_input t rawId :
  lookup max_str_digits t rawId <> Ok EmptyInput.
Proof.
  intros H. destruct (Py.int max_str_digits rawId) as [n|e] eqn:Hn.
  - destruct (lookup_parsed _ _ _ _ Hn H) as [E|[E|E]]; discriminate.
  - rewrite (int_raises _ _ _ Hn) in Hn.
    rewrite (lookup_invalid _ _ Hn) in H. discriminate.
Qed.

Lemma search_typed t rawId :
  rawId <> "" ->
  search max_str_digits t true rawId
  = (r <- lookup max_str_digits t rawId ;; Ok (Some r)).
Proof. destruct rawId; [contradiction | reflexivity]. Qed.

End LookupFacts.

(* ================================================================== *)
(** * A whole run *)

Section RunFacts.

Variable max_str_digits : nat.

Lemma body_alert b s t a :
  search max_str_digits t b s = Ok a ->
  body max_str_digits b s t
  = match body max_str_digits false s t with
    | Ok (p, g) => Ok (with_alert p a, g)
    | Raise e => Raise e
    end.
Proof.
  intros H. unfold body, bindM, query, retM.
  destruct (summarize t); simpl; [|reflexivity].
  rewrite H. simpl.
  destruct (legit_ids t) as [li|]; simpl; [|reflexivity].
  destruct (fraud_ids t) as [fi|]; simpl; [|reflexivity].
  destruct (quick_test li fi (fun _ => false)); simpl; [|reflexivity].
  destruct (fraud_samples t); simpl; [|reflexivity].
  destruct (legit_samples t); simpl; reflexivity.
Qed.

Lemma script_alert r b s a :
  (forall t, search max_str_digits t b s = Ok a) ->
  script max_str_digits r b s
  = run_with_alert (script max_str_digits r false s) a.
Proof.
  intros H. unfold script.
  destruct (load_data r) as [frame error].
  destruct (error_set error); [reflexivity|].
  destruct frame as [df0|]; [|reflexivity].
  destruct (detect_columns df0) as [t|e]; simpl; [|reflexivity].
  rewrite (body_alert _ _ _ _ (H t)).
  destruct (body max_str_digits false s t) as [[p g]|e]; reflexivity.
Qed.

End RunFacts.

(** C5. When the typed text is not a valid integer, the lookup raises
    nothing and leaves the globals as they were: its result is
    [InvalidId], shown as the error message asking for a valid numeric
    identifier.  A run in which the button is pressed on such a text
    differs from the run without a lookup in the alert only (the prompt
    [EmptyInput] when the text is empty, [InvalidId] otherwise). *)
Theorem invalid_id_is_contained (max_str_digits : nat) (t : Table)
  (rawId : string) :
  Py.int max_str_digits rawId = Raise ValueError ->
  lookup max_str_digits t rawId = Ok InvalidId /\
  display InvalidId rawId
  = st_error "Please enter a valid numeric Transaction ID" /\
  query (fun g => lookup max_str_digits g rawId) t = Ok (InvalidId, t) /\
  forall r,
    script max_str_digits r true rawId
    = run_with_alert (script max_str_digits r false rawId)
        (Some (if Py.truthy rawId then InvalidId else EmptyInput)).
Proof.
  intros H. repeat split.
  - now apply lookup_invalid.
  - unfold query. now rewrite (lookup_invalid _ _ _ H).
  - intros r. apply script_alert. intros g. destruct rawId as [|c s].
    + reflexivity.
    + rewrite search_typed by discriminate.
      now rewrite (lookup_invalid _ _ _ H).
Qed.

(** C6. [load_data] leaves through the not-found branch exactly when
    there is no file at the path, and returns that branch's message; for
    every other failure it returns the text of the exception.  After a
    failed load no page is produced: the run stops behind the error
    banner, or, when the exception text is empty, ends in the
    [AttributeError] of the first use of the missing frame. *)
Theorem load_errors_halt (max_str_digits : nat) (search_button : bool)
  (search_id : string) :
  (forall r, load_data_branch r = NotFoundError <-> r = NoSuchFile) /\
  load_data NoSuchFile = (None, Some "predictions.csv not found") /\
  (forall msg,
      load_data_branch (Failed msg) = ParseError msg /\
      load_data (Failed msg) = (None, Some msg)) /\
  (forall r, snd (load_data r) = None <-> exists frame, r = Parsed frame) /\
  script max_str_digits NoSuchFile search_button search_id
  = Ok (Stopped "Error: predictions.csv not found") /\
  (forall msg,
      script max_str_digits (Failed msg) search_button search_id
      = if Py.truthy msg then Ok (Stopped ("Error: " ++ msg))
        else Raise AttributeError) /\
  (forall r p g,
      script max_str_digits r search_button search_id = Ok (Rendered p g) ->
      exists frame, r = Parsed frame).
Proof.
  split; [|split; [|split; [|split; [|split; [|split]]]]].
  - intros r. split; [now destruct r | now intros ->].
  - reflexivity.
  - intros msg. split; reflexivity.
  - intros r. split.
    + destruct r as [frame| |msg]; simpl; try discriminate. eauto.
    + intros [frame ->]. reflexivity.
  - reflexivity.
  - intros msg. unfold script. simpl. now destruct msg.
  - intros r p g. destruct r as [frame| |msg]; [eauto | discriminate |].
    unfold script. simpl. destruct msg; discriminate.
Qed.

(** C10. The lookup widget tests the typed text for emptiness, not for
    blankness: a non-empty text of white space only is answered with
    [InvalidId]; the prompt [EmptyInput] appears only for the empty text;
    on a loaded table [InvalidId] appears exactly when the text does not
    parse; and digits surrounded by the white space [int] skips parse as
    the number they spell. *)
Theorem empty_check_is_not_blank_check (max_str_digits : nat) (t : Table) :
  (forall rawId, rawId <> "" -> all_space rawId = true ->
     search max_str_digits t true rawId = Ok (Some InvalidId)) /\
  search max_str_digits t true "" = Ok (Some EmptyInput) /\
  (forall b rawId, search max_str_digits t b rawId = Ok (Some EmptyInput) ->
     b = true /\ rawId = "") /\
  (forall df0, detect_columns df0 = Ok t -> Pd.well_formed (df t) = true ->
     forall rawId, rawId <> "" ->
       (search max_str_digits t true rawId = Ok (Some InvalidId) <->
        Py.int max_str_digits rawId = Raise ValueError)) /\
  (forall l ds r,
      all_padding l = true -> all_padding r = true ->
      all_digits ds = true -> ds <> "" ->
      Py.exceeds_limit max_str_digits (String.length ds) = false ->
      Py.int max_str_digits (l ++ ds ++ r) = Ok (decimal 0 ds)).
Proof.
  split; [|split; [|split; [|split]]].
  - intros rawId Hne Hs. rewrite search_typed by assumption.
    now rewrite (lookup_invalid _ _ _ (int_blank _ _ Hs)).
  - reflexivity.
  - intros b rawId H. destruct b; [|discriminate]. split; [reflexivity|].
    destruct rawId as [|c s]; [reflexivity|].
    rewrite search_typed in H by discriminate.
    destruct (lookup max_str_digits t (String c s)) as [r|e] eqn:E;
      [|discriminate].
    simpl in H. injection H as ->.
    now apply lookup_not_empty_input in E.
  - intros df0 _ _ rawId Hne. rewrite search_typed by assumption. split.
    + intros H.
      destruct (Py.int max_str_digits rawId) as [n|e] eqn:Hn.
      * destruct (lookup max_str_digits t rawId) as [r|e] eqn:E;
          [|discriminate].
        simpl in H. injection H as ->.
        destruct (lookup_parsed _ _ _ _ _ Hn E) as [X|[X|X]]; discriminate.
      * now rewrite (int_raises _ _ _ Hn).
    + intros H. now rewrite (lookup_invalid _ _ _ H).
  - intros l ds r. apply int_padded_digits.
Qed.

(* ================================================================== *)
(** * Runs on concrete files *)

Example demo_detect : detect_columns demo_frame = Ok demo_table.
Proof. reflexivity. Qed.

Example demo_fallback :
  detect_pred_col ["a"; "b"; "c"] = Ok "c" /\
  detect_id_col ["a"; "b"; "c"] = Ok "a".
Proof. split; reflexivity. Qed.

Example demo_metrics :
  summarize demo_table
  = Ok {| total := 4; fraud := 2; legit := 2; fraud_rate := 200 # 4 |}.
Proof. reflexivity. Qed.

Example demo_lookup :
  lookup 4300 demo_table "11" = Ok Fraudulent /\
  lookup 4300 demo_table " 10 " = Ok Legitimate /\
  lookup 4300 demo_table "999999999" = Ok NotFound /\
  lookup 4300 demo_table "abc" = Ok InvalidId /\
  lookup 4300 demo_table "1_1" = Ok Fraudulent.
Proof. repeat split; reflexivity. Qed.

Example demo_quick_ids :
  legit_ids demo_table = Ok [Pd.IntVal 10; Pd.IntVal 13] /\
  fraud_ids demo_table = Ok [Pd.IntVal 11; Pd.IntVal 12].
Proof. split; reflexivity. Qed.

Example demo_empty_message :
  script 4300 (Failed "") true "11" = Raise AttributeError.
Proof. reflexivity. Qed.

Lemma column_resolution_witness :
  Pd.columns demo_frame <> [] /\
  exists t,
    detect_columns demo_frame = Ok t /\
    Forall2 trimmed_of (Pd.columns demo_frame) (Pd.columns (df t)).
Proof.
  assert (H : Pd.columns demo_frame <> []) by discriminate.
  split; [exact H|].
  destruct (column_resolution demo_frame H) as [t [Ht [Hf _]]].
  exists t. split; [exact Ht | exact Hf].
Defined.

Lemma fraud_count_binary_witness :
  exists m, summarize demo_table = Ok m /\ fraud m = 2%Z.
Proof.
  destruct (fraud_count_binary demo_frame demo_table
              (Pd.Float64 [Pd.Num 0; Pd.Num 1; Pd.Num 1; Pd.Num 0]))
    as [m [Hm Hf]].
  - reflexivity.
  - reflexivity.
  - reflexivity.
  - intros x Hx. unfold binary. simpl in Hx.
    destruct Hx as [<-|[<-|[<-|[<-|[]]]]]; simpl;
      [right; left | left | left | right; left]; reflexivity.
  - reflexivity.
  - exists m. split; [exact Hm | exact Hf].
Defined.


Lemma invalid_id_is_contained_witness :
  lookup 4300 demo_table "abc" = Ok InvalidId.
Proof.
  exact (proj1 (invalid_id_is_contained 4300 demo_table "abc" eq_refl)).
Defined.

Lemma sample_first_matches_witness :
  exists r, sample demo_table isFraud 10 = Ok r /\
            Pd.columns r = Pd.columns (df demo_table).
Proof.
  destruct (sample_first_matches demo_frame demo_table isFraud 10)
    as [r [j [i [Hs [_ [_ [Hc _]]]]]]].
  - reflexivity.
  - reflexivity.
  - exists r. split; [exact Hs | exact Hc].
Defined.


(* ================================================================== *)
(** * Normalising the labels again *)

Lemma lstrip_fixed (p : ascii -> bool) (s : string) :
  (forall c s', s = String c s' -> p c = false) -> Py.lstrip p s = s.
Proof.
  destruct s as [|c s]; simpl; [reflexivity|].
  intros H. now rewrite (H c s eq_refl).
Qed.

Lemma rstrip_fixed (p : ascii -> bool) (s : string) :
  (forall s' c, s = s' ++ String c "" -> p c = false) -> Py.rstrip p s = s.
Proof.
  induction s as [|x s IH]; simpl; [reflexivity|].
  intros H. rewrite IH.
  - destruct s as [|y s]; [|reflexivity].
    now rewrite (H "" x eq_refl).
  - intros s' c E. apply (H (String x s') c). simpl. now rewrite E.
Qed.

Lemma strip_idempotent (s : string) : Py.strip (Py.strip s) = Py.strip s.
Proof.
  destruct (strip_trimmed s) as [[Hhead Hlast] _].
  unfold Py.strip at 1.
  rewrite (lstrip_fixed _ _ Hhead). exact (rstrip_fixed _ _ Hlast).
Qed.

Lemma set_columns_columns (df0 : Pd.DataFrame) :
  Pd.set_columns df0 (Pd.columns df0) = df0.
Proof.
  unfold Pd.set_columns, Pd.columns.
  induction df0 as [|[l s] df0 IH]; simpl; [reflexivity | now rewrite IH].
Qed.

(** X1. Trimming and detection reach a fixed point at once: run on the frame
    they produced, they change no label and choose the same two columns. *)
Theorem detect_columns_idempotent df0 t :
  detect_columns df0 = Ok t -> detect_columns (df t) = Ok t.
Proof.
  intros H. destruct (detect_columns_inv _ _ H) as [Hdf [Hp Hi]].
  assert (Hc : map Py.strip (Pd.columns (df t)) = Pd.columns (df t)).
  { rewrite Hdf, columns_set_columns, map_map. apply map_ext.
    intros a. apply strip_idempotent. }
  unfold detect_columns. rewrite Hc, set_columns_columns, Hp. simpl.
  rewrite Hi. simpl. now destruct t.
Qed.

Lemma detect_columns_idempotent_witness :
  detect_columns (df demo_table) = Ok demo_table.
Proof. apply (detect_columns_idempotent demo_frame). reflexivity. Defined.

(* ================================================================== *)
(** * Letter case and padding of the labels *)

Lemma scan_columns_same key cols1 cols2 :
  Forall2 (fun a b => Py.lower a = Py.lower b) cols1 cols2 ->
  (scan_columns key cols1 = None /\ scan_columns key cols2 = None) \/
  exists i a b,
    scan_columns key cols1 = Some a /\ scan_columns key cols2 = Some b /\
    nth_error cols1 i = Some a /\ nth_error cols2 i = Some b.
Proof.
  induction 1 as [|a b l1 l2 Hab _ IH]; simpl; [now left|].
  rewrite <- Hab. destruct (Py.contains key (Py.lower a)).
  - right. now exists 0, a, b.
  - destruct IH as [IH | [i [x [y [H1 [H2 [H3 H4]]]]]]]; [now left|].
    right. now exists (S i), x, y.
Qed.

Lemma last_nth_error (cs : list string) (c : string) :
  nth_error (c :: cs) (List.length cs) = Some (last cs c).
Proof.
  revert c; induction cs as [|x cs IH]; intros c; [reflexivity|].
  simpl List.length. change (nth_error (c :: x :: cs) (S (List.length cs)))
    with (nth_error (x :: cs) (List.length cs)).
  now rewrite IH, last_cons.
Qed.

Lemma detect_pred_col_same cols1 cols2 p1 :
  Forall2 (fun a b => Py.lower a = Py.lower b) cols1 cols2 ->
  detect_pred_col cols1 = Ok p1 ->
  exists p2 i,
    detect_pred_col cols2 = Ok p2 /\
    nth_error cols1 i = Some p1 /\ nth_error cols2 i = Some p2.
Proof.
  intros HF. unfold detect_pred_col.
  destruct (scan_columns_same "prediction" _ _ HF)
    as [[H1 H2] | [i [a [b [H1 [H2 [H3 H4]]]]]]]; rewrite H1, H2.
  - pose proof (Forall2_length HF) as Hlen.
    destruct HF as [|a b l1 l2 _ HF]; simpl; [discriminate|].
    intros H. injection H as <-. exists (last l2 b), (List.length l1).
    repeat split.
    + apply last_nth_error.
    + simpl in Hlen. injection Hlen as ->. apply last_nth_error.
  - intros H. injection H as <-. now exists b, i.
Qed.

Lemma detect_id_col_same cols1 cols2 p1 :
  Forall2 (fun a b => Py.lower a = Py.lower b) cols1 cols2 ->
  detect_id_col cols1 = Ok p1 ->
  exists p2 i,
    detect_id_col cols2 = Ok p2 /\
    nth_error cols1 i = Some p1 /\ nth_error cols2 i = Some p2.
Proof.
  intros HF. unfold detect_id_col.
  destruct (scan_columns_same "transaction" _ _ HF)
    as [[H1 H2] | [i [a [b [H1 [H2 [H3 H4]]]]]]]; rewrite H1, H2.
  - destruct HF as [|a b l1 l2 _ HF]; simpl; [discriminate|].
    intros H. injection H as <-. now exists b, 0.
  - intros H. injection H as <-. now exists b, i.
Qed.

(** X2. Two files whose labels differ, position by position, only in letter
    case and in outer white space have their prediction column at the
    same position, and their identifier column at the same position. *)
Theorem detection_ignores_case_and_padding df1 df2 t1 :
  Forall2 same_label (Pd.columns df1) (Pd.columns df2) ->
  detect_columns df1 = Ok t1 ->
  exists t2 i j,
    detect_columns df2 = Ok t2 /\
    nth_error (Pd.columns (df t1)) i = Some (pred_col t1) /\
    nth_error (Pd.columns (df t2)) i = Some (pred_col t2) /\
    nth_error (Pd.columns (df t1)) j = Some (id_col t1) /\
    nth_error (Pd.columns (df t2)) j = Some (id_col t2).
Proof.
  intros HF H1. destruct (detect_columns_inv _ _ H1) as [Hdf [Hp Hi]].
  rewrite Hdf, columns_set_columns in Hp, Hi |- *.
  assert (HF' : Forall2 (fun a b => Py.lower a = Py.lower b)
                  (map Py.strip (Pd.columns df1))
                  (map Py.strip (Pd.columns df2))).
  { clear -HF. induction HF; simpl; constructor; assumption. }
  destruct (detect_pred_col_same _ _ _ HF' Hp) as [p2 [i [Hp2 [Hi1 Hi2]]]].
  destruct (detect_id_col_same _ _ _ HF' Hi) as [i2 [j [Hid2 [Hj1 Hj2]]]].
  exists {| df := Pd.set_columns df2 (map Py.strip (Pd.columns df2));
            pred_col := p2; id_col := i2 |}, i, j.
  simpl. rewrite columns_set_columns. repeat split; try assumption.
  unfold detect_columns. rewrite columns_set_columns, Hp2. simpl.
  now rewrite Hid2.
Qed.

Lemma detection_ignores_case_and_padding_witness :
  exists t2,
    detect_columns
      [("transactionid", Pd.Int64 []); (" AMT", Pd.Int64 []);
       ("ISFRAUD_PREDICTION  ", Pd.Int64 [])] = Ok t2.
Proof.
  destruct (detection_ignores_case_and_padding demo_frame
              [("transactionid", Pd.Int64 []); (" AMT", Pd.Int64 []);
               ("ISFRAUD_PREDICTION  ", Pd.Int64 [])] demo_table)
    as [t2 [i [j [H _]]]].
  - repeat constructor.
  - reflexivity.
  - exists t2. exact H.
Defined.

(* ================================================================== *)
(** * What a lookup can answer *)

Section LookupOutcomes.

Variable max_str_digits : nat.

(** On a rectangular frame the lookup is decided by the prediction cells
    of the rows whose identifier equals the typed number. *)
Lemma lookup_cases t rawId n ids preds :
  Pd.rectangular (df t) = true ->
  Py.int max_str_digits rawId = Ok n ->
  Pd.getitem (df t) (id_col t) = Ok ids ->
  Pd.getitem (df t) (pred_col t) = Ok preds ->
  lookup max_str_digits t rawId
  = Ok match Pd.select (Pd.eq ids n) (Pd.values preds) with
       | [] => NotFound
       | p :: _ => if flagged p then Fraudulent else Legitimate
       end.
Proof.
  intros Hr Hn Hi Hp.
  assert (Hm : List.length (Pd.eq ids n) = Pd.len (df t)).
  { rewrite eq_length. exact (getitem_len _ _ _ Hr Hi). }
  assert (Hsel : List.length (Pd.select (Pd.eq ids n) (Pd.values preds))
                 = hits (Pd.eq ids n)).
  { apply select_length. rewrite Hm. symmetry.
    exact (getitem_len _ _ _ Hr Hp). }
  unfold lookup. rewrite Hn. simpl. rewrite Hi. simpl.
  rewrite (len_getitem_mask _ _ (getitem_nonempty _ _ _ Hp) Hr Hm), <- Hsel.
  rewrite getitem_getitem_mask, Hp. simpl. rewrite values_select.
  destruct (Pd.select (Pd.eq ids n) (Pd.values preds)) as [|p rest];
    simpl; [reflexivity|].
  now destruct (flagged p).
Qed.

(** X3. Whatever is typed, the lookup on a loaded table raises nothing and
    gives one of four answers; [InvalidId] is given exactly for the texts
    [int] refuses. *)
Theorem lookup_never_raises df0 t rawId :
  detect_columns df0 = Ok t ->
  Pd.well_formed (df t) = true ->
  exists r,
    lookup max_str_digits t rawId = Ok r /\
    (r = Fraudulent \/ r = Legitimate \/ r = NotFound \/ r = InvalidId) /\
    (r = InvalidId <-> Py.int max_str_digits rawId = Raise ValueError).
Proof.
  intros Hd Hwf. pose proof (well_formed_rectangular _ Hwf) as Hr.
  destruct (loaded_columns _ _ Hd) as [preds [ids [Hp Hi]]].
  destruct (Py.int max_str_digits rawId) as [n|e] eqn:Hn.
  - rewrite (lookup_cases _ _ _ _ _ Hr Hn Hi Hp).
    eexists. split; [reflexivity|].
    destruct (Pd.select _ _) as [|p rest]; [|destruct (flagged p)];
      (split; [tauto | split; discriminate]).
  - pose proof (int_raises _ _ _ Hn) as He. subst e.
    exists InvalidId. rewrite (lookup_invalid _ _ _ Hn). tauto.
Qed.

End LookupOutcomes.

Lemma lookup_never_raises_witness :
  exists r, lookup 4300 demo_table "<b>" = Ok r.
Proof.
  destruct (lookup_never_raises 4300 demo_frame demo_table "<b>")
    as [r [H _]]; [reflexivity | reflexivity |].
  exists r. exact H.
Defined.


(* ================================================================== *)
(** * The samples as frames *)


Lemma hits_le (m : list bool) : hits m <= List.length m.
Proof. unfold hits. apply filter_length_le. Qed.


Lemma isFraud_is_one (x : Pd.scalar) : isFraud x = true <-> is_one x.
Proof. unfold isFraud. rewrite eq_int_equals. now destruct x as [z|[q|]]. Qed.

Lemma isLegit_is_zero (x : Pd.scalar) : isLegit x = true <-> is_zero x.
Proof. unfold isLegit. rewrite eq_int_equals. now destruct x as [z|[q|]]. Qed.

Lemma in_firstn {A : Type} (k : nat) (l : list A) (x : A) :
  In x (firstn k l) -> In x l.
Proof.
  intros H. rewrite <- (firstn_skipn k l). apply in_or_app. now left.
Qed.

Lemma in_select {A : Type} (m : list bool) (xs : list A) (x : A) :
  In x (Pd.select m xs) ->
  exists i, nth_error xs i = Some x /\ nth_error m i = Some true.
Proof.
  revert xs; induction m as [|b m IH]; intros [|a xs]; simpl;
    try contradiction.
  destruct b.
  - intros [<- | H]; [now exists 0|].
    destruct (IH _ H) as [i [H1 H2]]. now exists (S i).
  - intros H. destruct (IH _ H) as [i [H1 H2]]. now exists (S i).
Qed.

Lemma sample_unfold t p k preds :
  Pd.getitem (df t) (pred_col t) = Ok preds ->
  sample t p k
  = Ok (Pd.head k (Pd.getitem_mask (df t) (map p (Pd.values preds)))).
Proof. intros Hp. unfold sample. now rewrite Hp. Qed.

Lemma rectangular_head_mask (df0 : Pd.DataFrame) (m : list bool) (k : nat) :
  df0 <> [] -> Pd.rectangular df0 = true -> List.length m = Pd.len df0 ->
  Pd.rectangular (Pd.head k (Pd.getitem_mask df0 m)) = true.
Proof.
  intros Hne Hr Hm. unfold Pd.rectangular. apply forallb_forall.
  intros c Hc. apply Nat.eqb_eq.
  rewrite len_head, (len_getitem_mask _ _ Hne Hr Hm).
  unfold Pd.head, Pd.getitem_mask in Hc. rewrite map_map in Hc.
  apply in_map_iff in Hc. destruct Hc as [[l s] [<- Hin]]. simpl.
  rewrite <- values_length, values_head, values_select, length_firstn.
  rewrite select_length; [reflexivity|].
  rewrite values_length, Hm. symmetry. exact (rectangular_In _ _ _ Hr Hin).
Qed.

Lemma in_select_in {A : Type} (m : list bool) (xs : list A) (x : A) :
  In x (Pd.select m xs) -> In x xs.
Proof.
  intros H. destruct (in_select _ _ _ H) as [i [Hi _]].
  exact (nth_error_In _ _ Hi).
Qed.

Lemma forallb_sub {A : Type} (p : A -> bool) (xs ys : list A) :
  (forall x, In x ys -> In x xs) ->
  forallb p xs = true -> forallb p ys = true.
Proof.
  intros Hs H. rewrite forallb_forall in *. intros x Hx. apply H, Hs, Hx.
Qed.

Lemma typed_select (m : list bool) (s : Pd.Series) :
  Pd.typed s = true -> Pd.typed (Pd.select_series m s) = true.
Proof.
  destruct s as [xs|xs]; simpl; apply forallb_sub; intros x;
    apply in_select_in.
Qed.

Lemma typed_head (k : nat) (s : Pd.Series) :
  Pd.typed s = true -> Pd.typed (Pd.head_series k s) = true.
Proof.
  destruct s as [xs|xs]; simpl; apply forallb_sub; intros x;
    apply in_firstn.
Qed.

Lemma typed_head_mask (df0 : Pd.DataFrame) (m : list bool) (k : nat) :
  forallb (fun c => Pd.typed (snd c)) df0 = true ->
  forallb (fun c => Pd.typed (snd c)) (Pd.head k (Pd.getitem_mask df0 m))
  = true.
Proof.
  intros H. rewrite forallb_forall in *. intros c Hc.
  unfold Pd.head, Pd.getitem_mask in Hc. rewrite map_map in Hc.
  apply in_map_iff in Hc. destruct Hc as [[l s] [<- Hin]]. simpl.
  apply typed_head, typed_select. exact (H (l, s) Hin).
Qed.

(** X5. A sample is again a proper frame: the labels of the table, columns of
    one length, at most [limit] rows and no more rows than the table
    has. *)
Theorem sample_keeps_frame df0 t (predicate : Pd.scalar -> bool) (limit : nat) :
  detect_columns df0 = Ok t ->
  Pd.well_formed (df t) = true ->
  exists r,
    sample t predicate limit = Ok r /\
    Pd.well_formed r = true /\
    Pd.columns r = Pd.columns (df t) /\
    Pd.len r <= limit /\
    Pd.len r <= Pd.len (df t).
Proof.
  intros Hd Hwf. pose proof (well_formed_rectangular _ Hwf) as Hr.
  destruct (loaded_columns _ _ Hd) as [preds [ids [Hp Hi]]].
  set (m := map predicate (Pd.values preds)).
  assert (Hm : List.length m = Pd.len (df t)).
  { unfold m. rewrite length_map. exact (getitem_len _ _ _ Hr Hp). }
  pose proof (getitem_nonempty _ _ _ Hp) as Hne.
  exists (Pd.head limit (Pd.getitem_mask (df t) m)).
  assert (Hc : Pd.columns (Pd.head limit (Pd.getitem_mask (df t) m))
               = Pd.columns (df t))
    by now rewrite columns_head, columns_getitem_mask.
  split; [exact (sample_unfold _ _ _ _ Hp)|].
  split; [|split; [exact Hc|]].
  - unfold Pd.well_formed. rewrite Hc.
    rewrite (rectangular_head_mask _ _ _ Hne Hr Hm).
    unfold Pd.well_formed in Hwf. rewrite !andb_true_iff in Hwf.
    destruct Hwf as [[_ Hdis] Hty].
    rewrite Hdis, (typed_head_mask _ m limit Hty). reflexivity.
  - rewrite len_head, (len_getitem_mask _ _ Hne Hr Hm).
    pose proof (hits_le m). lia.
Qed.

Lemma sample_keeps_frame_witness :
  exists r, sample demo_table isLegit 1 = Ok r /\ Pd.well_formed r = true.
Proof.
  destruct (sample_keeps_frame demo_frame demo_table isLegit 1)
    as [r [H1 [H2 _]]]; [reflexivity | reflexivity |].
  exists r. split; [exact H1 | exact H2].
Defined.

(** X6. The quick-test identifiers are the identifier cells of the first two
    rows of the two preview tabs. *)
Theorem quick_ids_lead_the_tabs df0 t :
  detect_columns df0 = Ok t ->
  Pd.well_formed (df t) = true ->
  exists fs ls i,
    fraud_samples t = Ok fs /\
    legit_samples t = Ok ls /\
    Pd.position (id_col t) (Pd.columns (df t)) = Some i /\
    fraud_ids t = Ok (firstn 2 (map (Pd.cell i) (Pd.records fs))) /\
    legit_ids t = Ok (firstn 2 (map (Pd.cell i) (Pd.records ls))).
Proof.
  intros Hd Hwf. pose proof (well_formed_rectangular _ Hwf) as Hr.
  destruct (loaded_columns _ _ Hd) as [preds [ids [Hp Hi]]].
  destruct (records_column _ _ _ Hr Hi) as [i [Hpi Hci]].
  pose proof (getitem_nonempty _ _ _ Hp) as Hne.
  assert (Hm : forall p : Pd.scalar -> bool,
             List.length (map p (Pd.values preds)) = Pd.len (df t)).
  { intros p. rewrite length_map. exact (getitem_len _ _ _ Hr Hp). }
  assert (Hrows : forall p : Pd.scalar -> bool,
             firstn 2 (map (Pd.cell i)
                         (Pd.records
                            (Pd.head 10 (Pd.getitem_mask (df t)
                                           (map p (Pd.values preds))))))
             = firstn 2 (Pd.select (map p (Pd.values preds)) (Pd.values ids))).
  { intros p. rewrite (records_head_mask _ _ _ Hne Hr (Hm p)).
    rewrite <- firstn_map, <- select_map, Hci, firstn_firstn. reflexivity. }
  eexists. eexists. exists i.
  unfold fraud_samples, legit_samples, fraud_ids, legit_ids.
  rewrite !(sample_unfold _ _ _ _ Hp), !(sample_ids_unfold _ _ _ _ _ Hp Hi).
  repeat split; [exact Hpi | |]; now rewrite Hrows.
Qed.

Lemma quick_ids_lead_the_tabs_witness :
  exists fs ls, fraud_samples demo_table = Ok fs /\
                legit_samples demo_table = Ok ls.
Proof.
  destruct (quick_ids_lead_the_tabs demo_frame demo_table)
    as [fs [ls [i [H1 [H2 _]]]]]; [reflexivity | reflexivity |].
  exists fs, ls. split; [exact H1 | exact H2].
Defined.



(* ================================================================== *)
(** * The quick-test buttons *)





Example repeated_id_ends_the_run :
  quick_test [Pd.IntVal 6] [Pd.IntVal 5; Pd.IntVal 5] (fun _ => false)
  = Raise DuplicateWidgetID /\
  script 4300 (Parsed repeated_id_frame) false "" = Raise DuplicateWidgetID.
Proof. split; reflexivity. Qed.

Section QuickTestAndLookup.

Variable max_str_digits : nat.

Lemma double_cell_exact (q : Q) (n : Z) :
  Pd.is_double q = true -> (q == inject_Z n)%Q -> Pd.to_double n = n.
Proof.
  unfold Pd.is_double, Qeq, inject_Z. cbn [Qnum Qden].
  intros H E. rewrite Z.mul_1_r in E. rewrite E in H.
  rewrite Z.mod_mul, Z.div_mul in H by discriminate. simpl in H.
  apply andb_true_iff in H. now apply Z.eqb_eq.
Qed.

Lemma eq_of_member (s : Pd.Series) (n : Z) (x : Pd.scalar) :
  Pd.typed s = true -> In x (Pd.values s) -> equals n x ->
  Pd.eq s n = map (fun y => Pd.eq_int y n) (Pd.values s).
Proof.
  intros Ht Hin Hx. unfold Pd.eq, Pd.as_cell.
  destruct s as [xs|xs]; [reflexivity|]. simpl in *.
  apply in_map_iff in Hin. destruct Hin as [c [<- Hc]].
  rewrite forallb_forall in Ht. specialize (Ht c Hc).
  destruct c as [q|]; [|contradiction].
  rewrite (double_cell_exact q n Ht Hx).
  now destruct (Pd.machine_int n).
Qed.

Lemma sampled_id_lookup t p k l x rawId n ids preds :
  Pd.rectangular (df t) = true ->
  Pd.typed ids = true ->
  Pd.getitem (df t) (id_col t) = Ok ids ->
  Pd.getitem (df t) (pred_col t) = Ok preds ->
  unique_id n (Pd.values ids) ->
  Py.int max_str_digits rawId = Ok n ->
  equals n x ->
  sample_ids t p k = Ok l -> In x l ->
  exists c,
    p c = true /\
    lookup max_str_digits t rawId
    = Ok (if flagged c then Fraudulent else Legitimate).
Proof.
  intros Hr Ht Hi Hp Hu Hn Hx Hs Hin.
  rewrite (sample_ids_unfold _ _ _ _ _ Hp Hi) in Hs. injection Hs as <-.
  apply in_firstn, in_select in Hin. destruct Hin as [i [Hxi Hmi]].
  rewrite nth_error_map in Hmi.
  destruct (nth_error (Pd.values preds) i) as [c|] eqn:Hc; [|discriminate].
  simpl in Hmi. injection Hmi as Hpc.
  exists c. split; [exact Hpc|].
  rewrite (lookup_cases _ _ _ _ _ _ Hr Hn Hi Hp).
  destruct (select_first (fun y => Pd.eq_int y n) (Pd.values ids)
              (Pd.values preds) i x c Hxi) as [rest Hrest].
  - now apply eq_int_equals.
  - intros j y Hj Hy. apply not_true_is_false. intros E.
    apply eq_int_equals in E.
    pose proof (Hu _ _ _ _ Hy Hxi E Hx). lia.
  - exact Hc.
  - rewrite (eq_of_member ids n x Ht (nth_error_In _ _ Hxi) Hx).
    now rewrite Hrest.
Qed.

(** X9. When at most one row carries the identifier [n], the class printed on
    a quick-test button for that identifier is the answer of the lookup
    for any text that parses as [n]. *)
Theorem quick_test_agrees_with_lookup df0 t ids rawId n x :
  detect_columns df0 = Ok t ->
  Pd.well_formed (df t) = true ->
  Pd.getitem (df t) (id_col t) = Ok ids ->
  unique_id n (Pd.values ids) ->
  Py.int max_str_digits rawId = Ok n ->
  equals n x ->
  (forall fi, fraud_ids t = Ok fi -> In x fi ->
              lookup max_str_digits t rawId = Ok Fraudulent) /\
  (forall li, legit_ids t = Ok li -> In x li ->
              lookup max_str_digits t rawId = Ok Legitimate).
Proof.
  intros Hd Hwf Hi Hu Hn Hx.
  pose proof (well_formed_rectangular _ Hwf) as Hr.
  destruct (loaded_columns _ _ Hd) as [preds [ids' [Hp _]]].
  destruct (getitem_In _ _ _ Hi) as [lbl Hmem].
  pose proof (well_formed_typed _ _ _ Hwf Hmem) as Ht.
  split; intros l Hl Hin.
  - destruct (sampled_id_lookup _ _ _ _ _ _ _ _ _ Hr Ht Hi Hp Hu Hn Hx Hl Hin)
      as [c [Hc ->]].
    apply isFraud_is_one, flagged_is_one in Hc. now rewrite Hc.
  - destruct (sampled_id_lookup _ _ _ _ _ _ _ _ _ Hr Ht Hi Hp Hu Hn Hx Hl Hin)
      as [c [Hc ->]].
    apply isLegit_is_zero in Hc. now rewrite (flagged_zero _ Hc).
Qed.

End QuickTestAndLookup.

Lemma quick_test_agrees_with_lookup_witness :
  lookup 4300 demo_table " 12" = Ok Fraudulent.
Proof.
  refine (proj1 (quick_test_agrees_with_lookup 4300 demo_frame demo_table
                   (Pd.Int64 [10; 11; 12; 13]%Z) " 12" 12 (Pd.IntVal 12)
                   eq_refl eq_refl eq_refl _ eq_refl eq_refl)
            [Pd.IntVal 11; Pd.IntVal 12] eq_refl _).
  - intros i j a b Ha Hb Ea Eb.
    assert (Hi : i = 2).
    { destruct i as [|[|[|[|[|i]]]]]; simpl in Ha; try discriminate Ha;
        injection Ha as Ha; subst a; simpl in Ea; lia. }
    assert (Hj : j = 2).
    { destruct j as [|[|[|[|[|j]]]]]; simpl in Hb; try discriminate Hb;
        injection Hb as Hb; subst b; simpl in Eb; lia. }
    lia.
  - simpl. tauto.
Defined.

(* ================================================================== *)
(** * The numbers of the summary on a binary column *)

Lemma rate_of_range (f n : Z) :
  (0 <= f <= n)%Z ->
  (0 <= rate_of f n)%Q /\ (rate_of f n <= inject_Z 100)%Q.
Proof.
  intros H. unfold rate_of. destruct (0 <? n)%Z eqn:E.
  - apply Z.ltb_lt in E. destruct n as [|p|p]; try lia.
    unfold Qle, Qdiv, Qmult, Qinv, inject_Z. cbn [Qnum Qden]. split; lia.
  - split; unfold Qle, inject_Z; cbn [Qnum Qden]; lia.
Qed.

Lemma complement_range (q : Q) :
  (0 <= q)%Q -> (q <= inject_Z 100)%Q ->
  (0 <= inject_Z 100 - q)%Q /\ (inject_Z 100 - q <= inject_Z 100)%Q.
Proof.
  destruct q as [a b]. unfold Qle, Qminus, Qplus, Qopp, inject_Z.
  cbn [Qnum Qden]. lia.
Qed.

(** X10. On a loaded table whose prediction cells are each 1, 0 or missing
    (fewer than 2^63 rows), the two counts lie between 0 and [total] and
    add up to it, so the bars of the chart are not negative; the fraud
    rate and the legitimate share lie between 0 and 100. *)
Theorem metrics_in_range df0 t preds :
  detect_columns df0 = Ok t ->
  Pd.well_formed (df t) = true ->
  Pd.getitem (df t) (pred_col t) = Ok preds ->
  (forall x, In x (Pd.values preds) -> binary x) ->
  (Z.of_nat (Pd.len_series preds) < 2 ^ 63)%Z ->
  exists m,
    summarize t = Ok m /\
    (0 <= fraud m <= total m)%Z /\
    (0 <= legit m <= total m)%Z /\
    (fraud m + legit m = total m)%Z /\
    Forall (fun bar => (0 <= snd bar)%Z) (chart_data m) /\
    (0 <= fraud_rate m)%Q /\ (fraud_rate m <= inject_Z 100)%Q /\
    (0 <= legit_rate m)%Q /\ (legit_rate m <= inject_Z 100)%Q.
Proof.
  intros _ Hwf Hp Hb Hlen.
  pose proof (getitem_len _ _ _ (well_formed_rectangular _ Hwf) Hp) as Hn.
  pose proof (fraud_of_binary _ Hb Hlen) as Hf.
  pose proof (filter_length_le flagged (Pd.values preds)) as Hle.
  assert (Hrange : (0 <= fraud_of preds <= Z.of_nat (Pd.len (df t)))%Z)
    by lia.
  destruct (rate_of_range _ _ Hrange) as [H0 H100].
  destruct (complement_range _ H0 H100) as [L0 L100].
  eexists. split; [exact (summarize_unfold _ _ Hp)|].
  unfold legit_rate, chart_data.
  cbn [total fraud legit fraud_rate].
  repeat split; try lia; try assumption.
  repeat constructor; cbn [snd]; lia.
Qed.

Lemma metrics_in_range_witness :
  exists m, summarize demo_table = Ok m /\ (0 <= legit m <= total m)%Z.
Proof.
  destruct (metrics_in_range demo_frame demo_table
              (Pd.Float64 [Pd.Num 0; Pd.Num 1; Pd.Num 1; Pd.Num 0]))
    as [m [Hm [_ [Hl _]]]].
  - reflexivity.
  - reflexivity.
  - reflexivity.
  - intros x Hx. unfold binary. simpl in Hx.
    destruct Hx as [<-|[<-|[<-|[<-|[]]]]]; simpl;
      [right; left | left | left | right; left]; reflexivity.
  - reflexivity.
  - exists m. split; [exact Hm | exact Hl].
Defined.

(* ================================================================== *)
(** * Reruns and the cached load *)

Lemma script_from_load_data (max_str_digits : nat) r search_button search_id :
  script_from max_str_digits (load_data r) search_button search_id
  = script max_str_digits r search_button search_id.
Proof. reflexivity. Qed.

Lemma session_cached (max_str_digits : nat) kept events :
  session max_str_digits (Some kept) events
  = map (fun e => script_from max_str_digits kept (snd (fst e)) (snd e)) events.
Proof.
  induction events as [|[[r b] s] events IH]; simpl; [reflexivity|].
  now rewrite IH.
Qed.

(** X12. Every rerun of a server process works on what the first call of
    [load_data] returned, whatever has become of the file since: a frame
    read once is not read again, and a failure of the first load (also
    the missing file) is repeated by every later rerun. *)
Theorem first_load_is_kept (max_str_digits : nat) r0 b0 s0 rest :
  session max_str_digits None ((r0, b0, s0) :: rest)
  = script max_str_digits r0 b0 s0
    :: map (fun e => script max_str_digits r0 (snd (fst e)) (snd e)) rest.
Proof.
  simpl. rewrite session_cached. f_equal.
Qed.

(* ================================================================== *)
(** * Spellings of one identifier *)

Lemma append_nil_r (s : string) : s ++ "" = s.
Proof. induction s as [|c s IH]; simpl; [reflexivity | now rewrite IH]. Qed.

Lemma append_assoc (a b c : string) : (a ++ b) ++ c = a ++ (b ++ c).
Proof. induction a as [|x a IH]; simpl; [reflexivity | now rewrite IH]. Qed.

Lemma all_chars_app (p : ascii -> bool) (a b : string) :
  all_chars p (a ++ b) = all_chars p a && all_chars p b.
Proof.
  induction a as [|c a IH]; simpl; [reflexivity|].
  now rewrite IH, andb_assoc.
Qed.

Lemma all_chars_weaken (p q : ascii -> bool) (s : string) :
  (forall c, p c = true -> q c = true) ->
  all_chars p s = true -> all_chars q s = true.
Proof.
  intros H. induction s as [|c s IH]; simpl; [reflexivity|].
  rewrite !andb_true_iff. intros [Hc Hs]. split; [now apply H | now apply IH].
Qed.

Lemma length_append (a b : string) :
  String.length (a ++ b) = String.length a + String.length b.
Proof. induction a as [|c a IH]; simpl; [reflexivity | now rewrite IH]. Qed.

Lemma zero_is_digit (c : ascii) : is_zero_digit c = true -> Py.isdigit c = true.
Proof.
  unfold is_zero_digit, Py.isdigit. intros H. apply Nat.eqb_eq in H.
  now rewrite H.
Qed.

Lemma decimal_zeros (zs ds : string) :
  all_chars is_zero_digit zs = true -> decimal 0 (zs ++ ds) = decimal 0 ds.
Proof.
  induction zs as [|c zs IH]; simpl; [reflexivity|].
  rewrite andb_true_iff. intros [Hc Hz].
  unfold is_zero_digit in Hc. apply Nat.eqb_eq in Hc.
  unfold Py.digit_value. rewrite Hc. simpl. now apply IH.
Qed.

Lemma exceeds_limit_mono (max_str_digits a b : nat) :
  a <= b -> Py.exceeds_limit max_str_digits b = false ->
  Py.exceeds_limit max_str_digits a = false.
Proof.
  unfold Py.exceeds_limit. intros Hab H.
  apply andb_false_iff in H. apply andb_false_iff.
  destruct H as [H|H]; [now left | right].
  apply Nat.ltb_ge in H. apply Nat.ltb_ge. lia.
Qed.

Lemma int_signed_digits (max_str_digits : nat) (negative : bool)
  (l ds r : string) :
  all_padding l = true -> all_padding r = true ->
  all_digits ds = true -> ds <> "" ->
  Py.exceeds_limit max_str_digits (String.length ds) = false ->
  Py.int max_str_digits
    (l ++ String (if negative then "-" else "+")%char (ds ++ r))
  = Ok (if negative then (- decimal 0 ds)%Z else decimal 0 ds).
Proof.
  intros Hl Hr Hd Hne Hlim. unfold Py.int.
  rewrite (lstrip_app _ _ _ Hl).
  assert (Hs : Py.rstrip Py.ISSPACE
                 (Py.lstrip Py.ISSPACE
                    (String (if negative then "-" else "+")%char (ds ++ r)))
               = String (if negative then "-" else "+")%char ds).
  { assert (Hb : Py.rstrip Py.ISSPACE (ds ++ r) = ds)
      by (rewrite (rstrip_app _ _ _ Hr); now apply rstrip_digits).
    destruct negative; simpl; rewrite Hb; destruct ds; try contradiction;
      reflexivity. }
  rewrite Hs. destruct ds as [|c ds]; [contradiction|].
  assert (Hc : Py.isdigit c = true).
  { unfold all_digits in Hd. simpl in Hd. now apply andb_true_iff in Hd. }
  assert (Hsplit : Py.split_sign
                     (String (if negative then "-" else "+")%char (String c ds))
                   = (negative, String c ds))
    by now destruct negative.
  rewrite Hsplit, (digit_not_underscore _ Hc).
  rewrite (scan_digits_all _ _ _ Hd). cbv beta iota.
  now rewrite Nat.add_0_l, Hlim.
Qed.

Lemma lookup_same_number (max_str_digits : nat) t s1 s2 n :
  Py.int max_str_digits s1 = Ok n -> Py.int max_str_digits s2 = Ok n ->
  lookup max_str_digits t s1 = lookup max_str_digits t s2.
Proof. intros H1 H2. unfold lookup. now rewrite H1, H2. Qed.

(** X13. Leading zeros, a plus sign and white space around the number do not
    change what is looked up: within the digit limit such a text parses
    as the number its digits spell and gets the answer of the bare
    digits; with a minus sign it parses as the negated number. *)
Theorem spelling_of_the_identifier (max_str_digits : nat) t (l zs ds r : string) :
  all_padding l = true -> all_padding r = true ->
  all_chars is_zero_digit zs = true ->
  all_digits ds = true -> ds <> "" ->
  Py.exceeds_limit max_str_digits (String.length zs + String.length ds)
  = false ->
  Py.int max_str_digits (l ++ zs ++ ds ++ r) = Ok (decimal 0 ds) /\
  Py.int max_str_digits (l ++ String "+" (zs ++ ds ++ r)) = Ok (decimal 0 ds) /\
  Py.int max_str_digits (l ++ String "-" (zs ++ ds ++ r))
  = Ok (- decimal 0 ds)%Z /\
  lookup max_str_digits t (l ++ zs ++ ds ++ r) = lookup max_str_digits t ds /\
  lookup max_str_digits t (l ++ String "+" (zs ++ ds ++ r))
  = lookup max_str_digits t ds.
Proof.
  intros Hl Hr Hz Hd Hne Hlim.
  assert (Hbody : all_digits (zs ++ ds) = true).
  { unfold all_digits. rewrite all_chars_app.
    rewrite (all_chars_weaken _ _ _ zero_is_digit Hz). exact Hd. }
  assert (Hbne : zs ++ ds <> "").
  { destruct zs; simpl; [exact Hne | discriminate]. }
  assert (Hblim : Py.exceeds_limit max_str_digits (String.length (zs ++ ds))
                  = false) by now rewrite length_append.
  assert (Hbare : Py.int max_str_digits ds = Ok (decimal 0 ds)).
  { pose proof (int_padded_digits max_str_digits "" ds "" eq_refl eq_refl
                  Hd Hne) as H.
    rewrite append_nil_r in H. apply H.
    apply (exceeds_limit_mono _ _ _ (Nat.le_add_l _ _) Hlim). }
  assert (H0 : Py.int max_str_digits (l ++ zs ++ ds ++ r)
               = Ok (decimal 0 ds)).
  { rewrite <- (append_assoc zs ds r).
    rewrite (int_padded_digits _ _ _ _ Hl Hr Hbody Hbne Hblim).
    now rewrite (decimal_zeros _ _ Hz). }
  assert (Hplus : Py.int max_str_digits (l ++ String "+" (zs ++ ds ++ r))
                  = Ok (decimal 0 ds)).
  { rewrite <- (append_assoc zs ds r).
    rewrite (int_signed_digits _ false _ _ _ Hl Hr Hbody Hbne Hblim).
    now rewrite (decimal_zeros _ _ Hz). }
  repeat split; try assumption.
  - rewrite <- (append_assoc zs ds r).
    rewrite (int_signed_digits _ true _ _ _ Hl Hr Hbody Hbne Hblim).
    now rewrite (decimal_zeros _ _ Hz).
  - exact (lookup_same_number _ _ _ _ _ H0 Hbare).
  - exact (lookup_same_number _ _ _ _ _ Hplus Hbare).
Qed.

Lemma spelling_of_the_identifier_witness :
  lookup 4300 demo_table "  +0011 " = lookup 4300 demo_table "11".
Proof.
  exact (proj2 (proj2 (proj2 (proj2
    (spelling_of_the_identifier 4300 demo_table "  " "00" "11" " "
       eq_refl eq_refl eq_refl eq_refl
       (fun H => match H with eq_refl => I end) eq_refl))))).
Defined.

(** X14. A run of digits longer than the interpreter's limit is refused like
    any other invalid text: [int] raises [ValueError] and the lookup
    answers [InvalidId], not [NotFound]. *)
Theorem digits_over_the_limit (max_str_digits : nat) t (l ds r : string) :
  all_padding l = true -> all_padding r = true ->
  all_digits ds = true ->
  Py.exceeds_limit max_str_digits (String.length ds) = true ->
  Py.int max_str_digits (l ++ ds ++ r) = Raise ValueError /\
  lookup max_str_digits t (l ++ ds ++ r) = Ok InvalidId.
Proof.
  intros Hl Hr Hd Hlim.
  assert (Hne : ds <> "").
  { intros ->. unfold Py.exceeds_limit in Hlim. simpl in Hlim.
    apply andb_true_iff in Hlim. destruct Hlim as [_ H].
    apply Nat.ltb_lt in H. lia. }
  assert (H : Py.int max_str_digits (l ++ ds ++ r) = Raise ValueError).
  { unfold Py.int. rewrite (strip_padded_digits _ _ _ Hl Hr Hd Hne).
    destruct ds as [|c ds]; [contradiction|].
    assert (Hc : Py.isdigit c = true).
    { unfold all_digits in Hd. simpl in Hd. now apply andb_true_iff in Hd. }
    rewrite (split_sign_digit _ _ Hc), (digit_not_underscore _ Hc).
    rewrite (scan_digits_all _ _ _ Hd). cbv beta iota.
    now rewrite Nat.add_0_l, Hlim. }
  split; [exact H | exact (lookup_invalid _ _ _ H)].
Qed.

Lemma digits_over_the_limit_witness :
  lookup 3 demo_table " 0011 " = Ok InvalidId.
Proof.
  exact (proj2 (digits_over_the_limit 3 demo_table " " "0011" " "
                  eq_refl eq_refl eq_refl eq_refl)).
Defined.

(* ================================================================== *)
(** * The text the alerts repeat *)

Lemma scan_digits_chars (s : string) (acc : Z) (n : nat) (prev_us : bool)
  (x : Z * nat) :
  Py.scan_digits s acc n prev_us = Some x ->
  all_chars (fun c => Py.isdigit c || Py.is_underscore c) s = true.
Proof.
  revert acc n prev_us; induction s as [|c s IH]; intros acc n prev_us;
    simpl; [reflexivity|].
  destruct (Py.isdigit c); simpl; [apply IH|].
  destruct (Py.is_underscore c); simpl; [|discriminate].
  destruct prev_us; [discriminate | apply IH].
Qed.

Lemma split_sign_cases (u : string) :
  snd (Py.split_sign u) = u \/
  exists c, u = String c (snd (Py.split_sign u)) /\
            (Py.code c = 43 \/ Py.code c = 45).
Proof.
  destruct u as [|c u]; [now left|].
  destruct c as [[] [] [] [] [] [] [] []]; simpl;
    try (now left); right; eexists; split; try reflexivity;
    [left | right]; reflexivity.
Qed.

Lemma literal_of_padding (c : ascii) :
  Py.ISSPACE c = true -> literal_char c = true.
Proof.
  intros H. unfold literal_char. rewrite H.
  now rewrite !orb_true_r.
Qed.

Lemma literal_of_digit (c : ascii) :
  Py.isdigit c || Py.is_underscore c = true -> literal_char c = true.
Proof. intros H. unfold literal_char. now rewrite H. Qed.

Lemma int_accepts_literals_only (max_str_digits : nat) (s : string) (n : Z) :
  Py.int max_str_digits s = Ok n -> all_chars literal_char s = true.
Proof.
  intros H.
  destruct (lstrip_split Py.ISSPACE s) as [l [Hs Hl]].
  destruct (rstrip_split Py.ISSPACE (Py.lstrip Py.ISSPACE s)) as [r [Hu Hr]].
  rewrite Hs, Hu, !all_chars_app.
  rewrite (all_chars_weaken _ _ _ literal_of_padding Hl).
  rewrite (all_chars_weaken _ _ _ literal_of_padding Hr).
  rewrite andb_true_r. simpl.
  unfold Py.int in H.
  pose proof (split_sign_cases
                (Py.rstrip Py.ISSPACE (Py.lstrip Py.ISSPACE s))) as Hc.
  destruct (Py.split_sign (Py.rstrip Py.ISSPACE (Py.lstrip Py.ISSPACE s)))
    as [neg body].
  simpl in Hc.
  assert (Hbody : all_chars literal_char body = true).
  { destruct body as [|c body]; [reflexivity|].
    destruct (Py.is_underscore c); [discriminate|].
    destruct (Py.scan_digits (String c body) 0 0 false) as [x|] eqn:E;
      [|discriminate].
    exact (all_chars_weaken _ _ _ literal_of_digit
             (scan_digits_chars _ _ _ _ _ E)). }
  destruct Hc as [-> | [c [-> Hsign]]]; [exact Hbody|].
  simpl. rewrite Hbody, andb_true_r. unfold literal_char.
  destruct Hsign as [E|E]; rewrite E; simpl; now rewrite !orb_true_r.
Qed.

(** X15. The typed text is repeated in an alert only after [int] has accepted
    it.  Whenever the lookup answers, either every character of the text
    is a digit, an underscore, a sign or white space, or the answer is
    the fixed message for an invalid identifier, which repeats nothing of
    the text. *)
Theorem alerts_repeat_numbers_only (max_str_digits : nat) t rawId r :
  lookup max_str_digits t rawId = Ok r ->
  all_chars literal_char rawId = true \/
  (r = InvalidId /\
   forall other, display r rawId = display r other).
Proof.
  intros H. destruct (Py.int max_str_digits rawId) as [n|e] eqn:Hn.
  - left. exact (int_accepts_literals_only _ _ _ Hn).
  - right. pose proof (int_raises _ _ _ Hn) as He. subst e.
    rewrite (lookup_invalid _ _ _ Hn) in H. injection H as <-.
    split; reflexivity.
Qed.

Lemma alerts_repeat_numbers_only_witness :
  all_chars literal_char " 1_1 " = true \/
  (Fraudulent = InvalidId /\
   forall other, display Fraudulent " 1_1 " = display Fraudulent other).
Proof.
  apply (alerts_repeat_numbers_only 4300 demo_table " 1_1 " Fraudulent).
  reflexivity.
Defined.
